(** * CHSRMT (linear WBGT build): the heat-stress computation and state engine

    A shallow embedding of [app.py], the Streamlit script of the Calibrated
    Heat-Stress Risk Management Tool, and the properties of its baseline
    freeze, penalty clamping, band classification and audit log.

    Number model.  The script computes with Python floats.  They are
    idealised here as real numbers ([R] of the Standard Library): rounding,
    overflow to infinity and NaN are outside the model.  Comparisons,
    [min] and [max] are exact on floats, so the order-theoretic statements
    carry over; statements that rest on the arithmetic of the reals say so.

    Execution model.  Streamlit re-runs the whole script, top to bottom, on
    every user interaction.  One such run past the landing gate is one
    evaluation cycle: a function from the session state and the values the
    widgets return in that run to the next session state and what is shown.
    The landing gate (lines 106-134) stops the script before any of the
    state below is touched, so runs that end there are not cycles. *)

From Stdlib Require Import Reals Lra List String Ascii Bool ZArith DecimalString.
Import ListNotations.

Local Open Scope R_scope.

(** ** Python's two-argument [max] and [min]

    [max(a, b)] keeps [a] unless [b > a]; [min(a, b)] keeps [a] unless
    [b < a]. *)

Definition py_max (a b : R) : R := if Rlt_dec a b then b else a.
Definition py_min (a b : R) : R := if Rlt_dec b a then b else a.

(** ** Unit conversion helpers (lines 154-159) *)

Definition f_to_c (f : R) : R := (f - 32) * 5 / 9.
Definition mph_to_ms (v : R) : R := v / 2.23694.

(** ** Block 5: the numeric estimators (lines 422-442) *)

(** [rh ** 1.5].  The RH widget is bounded to [0, 100] (line 360), so the
    base is never negative; the power of zero is zero. *)
Definition pow15 (x : R) : R := if Rle_dec x 0 then 0 else Rpower x 1.5.

(** Natural wet-bulb, Stull's approximation (lines 422-428). *)
Definition stull_twb (db rh : R) : R :=
  db * atan (0.151977 * sqrt (rh + 8.313659))
  + atan (db + rh)
  - atan (rh - 1.676331)
  + 0.00391838 * pow15 rh * atan (0.023101 * rh)
  - 4.686035.

(** Wind damping factor (lines 435-436). *)
Definition wind_factor (ws : R) : R :=
  let v := py_max ws 0.1 in
  1.0 / (1.0 + 0.4 * sqrt v).

(** Wind-corrected globe temperature (line 437). *)
Definition gt_adj (db gt ws : R) : R :=
  db + (gt - db) * wind_factor ws.

(** Outdoor WBGT (line 442). *)
Definition wbgt_raw (db rh gt ws : R) : R :=
  0.7 * stull_twb db rh + 0.2 * gt_adj db gt ws + 0.1 * db.

(** ** Fixed-point formatting: [f"{x:.1f}"] and [f"{x:.0f}"]

    The audit entry stores its numbers as text.  Python rounds the value to
    the requested number of decimals, ties to even, and prints the sign of
    the value, the integer digits and, when decimals are asked for, a point
    and exactly that many decimals. *)

Definition round_half_even (x : R) : Z :=
  let n := Int_part x in
  let f := frac_part x in
  if Rlt_dec f (1 / 2) then n
  else if Rlt_dec (1 / 2) f then (n + 1)%Z
  else if Z.even n then n else (n + 1)%Z.

Definition dec_digits (n : Z) : string := NilZero.string_of_int (Z.to_int n).

(** The [d] low-order decimal digits of [r], most significant first. *)
Fixpoint frac_digits (d : nat) (r : Z) : string :=
  match d with
  | O => EmptyString
  | S d' => (frac_digits d' (r / 10) ++ dec_digits (r mod 10))%string
  end.

Definition py_fixed (d : nat) (x : R) : string :=
  let scale := (10 ^ Z.of_nat d)%Z in
  let m := round_half_even (Rabs x * IZR scale) in
  ((if Rlt_dec x 0 then "-" else "")
   ++ dec_digits (m / scale)
   ++ match d with
      | O => ""
      | S _ => "." ++ frac_digits d (m mod scale)
      end)%string.

(** ** Data model *)

Inductive Units := metric | imperial.

Inductive Accl := Acclimatized | NotAcclimatized.

(** The environment signature: the dict [env_now] of line 409, with its
    keys ["db"], ["rh"], ["gt"] and ["ws"]. *)
Record EnvSig := mkEnvSig { env_db : R; env_rh : R; env_gt : R; env_ws : R }.

Definition EnvSig_eq_dec (a b : EnvSig) : {a = b} + {a <> b}.
Proof. decide equality; apply Req_dec_T. Defined.

(** One row of the audit trail: the dict [log_entry] of lines 740-751,
    every value a string. *)
Record LogEntry := mkLogEntry {
  timestamp : string;
  location : string;
  DB_C : string;
  RH_pct : string;
  GT_C : string;
  WBGT_baseline_C : string;
  Penalty_total_C : string;
  WBGT_eff_C : string;
  Risk : string;
  CHSI_scaled : string
}.

Definition LogEntry_eq_dec (a b : LogEntry) : {a = b} + {a <> b}.
Proof. decide equality; apply string_dec. Defined.

(** The four risk bands of block 7, and the text stored under
    [ss["risk_band"]]. *)
Inductive Band := Low | Caution | HighStrain | Withdrawal.

Definition band_text (b : Band) : string :=
  match b with
  | Low => "Low environmental heat stress"
  | Caution => "Heightened / Caution"
  | HighStrain => "High strain warning"
  | Withdrawal => "Withdrawal / Stop Work"
  end.

(** The keys of [st.session_state] that the engine reads.  A key that the
    script only reads through [ss.get(key, default)] is a plain field that
    starts at that default; [None] and an absent key are the same [None].
    Keys that are written and never read back ([twb_c], [p_kpa], the
    legacy [thr_green_c] family, [wbgt_A_c]) and widget keys are left out;
    [ss["units"]] is overwritten from the sidebar radio (line 217) before
    any use, so the cycle takes it from its input. *)
Record Session := mkSession {
  db_c : R;
  rh_pct : R;
  ws_ms : R;
  gt_c : R;
  place_label : string;
  prev_env : option EnvSig;
  wbgt_raw_c : option R;
  wbgt_base_c : R;
  wbgt_base_frozen : option R;
  wbgt_eff_c : option R;
  penalties_applied : bool;
  pen_clo_c : R;
  pen_veh_c : R;
  pen_rad_c : R;
  pen_adhoc_c : R;
  total_penalty_c : R;
  thr_A_c : R;
  thr_B_c : R;
  thr_C_c : R;
  risk_band : string;
  chsi_scaled : R;
  audit_log : list LogEntry
}.

(** The session after the defaults of lines 176-200 on a fresh session. *)
Definition init : Session := {|
  db_c := 32.0;
  rh_pct := 60.0;
  ws_ms := 1.0;
  gt_c := 35.0;
  place_label := "";
  prev_env := None;
  wbgt_raw_c := None;
  wbgt_base_c := 0;
  wbgt_base_frozen := None;
  wbgt_eff_c := None;
  penalties_applied := false;
  pen_clo_c := 0.0;
  pen_veh_c := 0.0;
  pen_rad_c := 0.0;
  pen_adhoc_c := 0.0;
  total_penalty_c := 0.0;
  thr_A_c := 29.0;
  thr_B_c := 32.0;
  thr_C_c := 35.0;
  risk_band := "";
  chsi_scaled := 0;
  audit_log := []
|}.

(** What one run receives from outside: the values the widgets return, the
    buttons, and the clock.  Number inputs are in display units. *)
Record Input := mkInput {
  unit_choice : Units;
  place_pick : option string;
  db_in : R;
  rh_in : R;
  ws_in : R;
  gt_in : R;
  ppe_delta_input : R;
  veh_delta_input : R;
  rad_delta_input : R;
  adhoc_delta_input : R;
  apply_btn : bool;
  accl_status : Accl;
  now : string
}.

(** What the apply handler reports. *)
Inductive ApplyOutcome :=
  | NoFrozenBaseline
  | PenaltiesApplied (total_penalty eff : R).

(** What the run shows that the properties below talk about. *)
Record View := mkView {
  apply_outcome : option ApplyOutcome;
  has_log : bool;
  can_export : bool
}.

(** ** The blocks of the script, in the order they run *)

(** Block 3, lines 258-294: a successful city search stores its label. *)
Definition location_search (i : Input) (s : Session) : Session := {|
  db_c := db_c s;
  rh_pct := rh_pct s;
  ws_ms := ws_ms s;
  gt_c := gt_c s;
  place_label := match place_pick i with Some c => c | None => place_label s end;
  prev_env := prev_env s;
  wbgt_raw_c := wbgt_raw_c s;
  wbgt_base_c := wbgt_base_c s;
  wbgt_base_frozen := wbgt_base_frozen s;
  wbgt_eff_c := wbgt_eff_c s;
  penalties_applied := penalties_applied s;
  pen_clo_c := pen_clo_c s;
  pen_veh_c := pen_veh_c s;
  pen_rad_c := pen_rad_c s;
  pen_adhoc_c := pen_adhoc_c s;
  total_penalty_c := total_penalty_c s;
  thr_A_c := thr_A_c s;
  thr_B_c := thr_B_c s;
  thr_C_c := thr_C_c s;
  risk_band := risk_band s;
  chsi_scaled := chsi_scaled s;
  audit_log := audit_log s
|}.

(** Block 4, lines 347-388: every environmental key is overwritten by what
    its number input returns, converted to the internal units.  (The
    weather fetch of lines 306-341 writes the same keys just before; its
    values reach the engine only through these widgets.) *)
Definition manual_inputs (i : Input) (s : Session) : Session := {|
  db_c := match unit_choice i with metric => db_in i | imperial => f_to_c (db_in i) end;
  rh_pct := rh_in i;
  ws_ms := match unit_choice i with metric => ws_in i | imperial => mph_to_ms (ws_in i) end;
  gt_c := match unit_choice i with metric => gt_in i | imperial => f_to_c (gt_in i) end;
  place_label := place_label s;
  prev_env := prev_env s;
  wbgt_raw_c := wbgt_raw_c s;
  wbgt_base_c := wbgt_base_c s;
  wbgt_base_frozen := wbgt_base_frozen s;
  wbgt_eff_c := wbgt_eff_c s;
  penalties_applied := penalties_applied s;
  pen_clo_c := pen_clo_c s;
  pen_veh_c := pen_veh_c s;
  pen_rad_c := pen_rad_c s;
  pen_adhoc_c := pen_adhoc_c s;
  total_penalty_c := total_penalty_c s;
  thr_A_c := thr_A_c s;
  thr_B_c := thr_B_c s;
  thr_C_c := thr_C_c s;
  risk_band := risk_band s;
  chsi_scaled := chsi_scaled s;
  audit_log := audit_log s
|}.

(** Line 409: the signature of the current inputs. *)
Definition env_now (s : Session) : EnvSig :=
  {| env_db := db_c s; env_rh := rh_pct s; env_gt := gt_c s; env_ws := ws_ms s |}.

(** [ss["prev_env"] != env_now]; the empty dict of line 407 differs from
    every signature. *)
Definition env_changed (s : Session) : bool :=
  match prev_env s with
  | None => true
  | Some e => if EnvSig_eq_dec e (env_now s) then false else true
  end.

(** Block 5, lines 406-417: reset the frozen baseline when the signature
    changed, then remember the signature. *)
Definition detect_change (s : Session) : Session := {|
  db_c := db_c s;
  rh_pct := rh_pct s;
  ws_ms := ws_ms s;
  gt_c := gt_c s;
  place_label := place_label s;
  prev_env := Some (env_now s);
  wbgt_raw_c := wbgt_raw_c s;
  wbgt_base_c := wbgt_base_c s;
  wbgt_base_frozen := if env_changed s then None else wbgt_base_frozen s;
  wbgt_eff_c := if env_changed s then None else wbgt_eff_c s;
  penalties_applied := if env_changed s then false else penalties_applied s;
  pen_clo_c := pen_clo_c s;
  pen_veh_c := pen_veh_c s;
  pen_rad_c := pen_rad_c s;
  pen_adhoc_c := pen_adhoc_c s;
  total_penalty_c := if env_changed s then 0.0 else total_penalty_c s;
  thr_A_c := thr_A_c s;
  thr_B_c := thr_B_c s;
  thr_C_c := thr_C_c s;
  risk_band := risk_band s;
  chsi_scaled := chsi_scaled s;
  audit_log := audit_log s
|}.

(** The raw WBGT of the current inputs (lines 422-442). *)
Definition wbgt_raw_now (s : Session) : R :=
  wbgt_raw (db_c s) (rh_pct s) (gt_c s) (ws_ms s).

(** Block 5, lines 443-452: store the raw value, freeze it when no frozen
    baseline is held, and tie the effective value to the frozen one while
    penalties are not applied. *)
Definition freeze_baseline (s : Session) : Session :=
  let frozen :=
    match wbgt_base_frozen s with
    | None => Some (wbgt_raw_now s)
    | Some b => Some b
    end in
  {|
  db_c := db_c s;
  rh_pct := rh_pct s;
  ws_ms := ws_ms s;
  gt_c := gt_c s;
  place_label := place_label s;
  prev_env := prev_env s;
  wbgt_raw_c := Some (wbgt_raw_now s);
  wbgt_base_c := wbgt_raw_now s;
  wbgt_base_frozen := frozen;
  wbgt_eff_c := if negb (penalties_applied s) then frozen else wbgt_eff_c s;
  penalties_applied := penalties_applied s;
  pen_clo_c := pen_clo_c s;
  pen_veh_c := pen_veh_c s;
  pen_rad_c := pen_rad_c s;
  pen_adhoc_c := pen_adhoc_c s;
  total_penalty_c := total_penalty_c s;
  thr_A_c := thr_A_c s;
  thr_B_c := thr_B_c s;
  thr_C_c := thr_C_c s;
  risk_band := risk_band s;
  chsi_scaled := chsi_scaled s;
  audit_log := audit_log s
|}.

(** Block 5 as a whole. *)
Definition baseline_block (s : Session) : Session :=
  freeze_baseline (detect_change s).

(** [number_delta], lines 490-499: the number input is in display units,
    the result in degrees Celsius. *)
Definition number_delta (u : Units) (widget : R) : R :=
  match u with
  | metric => widget
  | imperial => widget * 5 / 9
  end.

(** Lines 501-541: the four penalty inputs are staged in the session. *)
Definition penalty_widgets (i : Input) (s : Session) : Session := {|
  db_c := db_c s;
  rh_pct := rh_pct s;
  ws_ms := ws_ms s;
  gt_c := gt_c s;
  place_label := place_label s;
  prev_env := prev_env s;
  wbgt_raw_c := wbgt_raw_c s;
  wbgt_base_c := wbgt_base_c s;
  wbgt_base_frozen := wbgt_base_frozen s;
  wbgt_eff_c := wbgt_eff_c s;
  penalties_applied := penalties_applied s;
  pen_clo_c := number_delta (unit_choice i) (ppe_delta_input i);
  pen_veh_c := number_delta (unit_choice i) (veh_delta_input i);
  pen_rad_c := number_delta (unit_choice i) (rad_delta_input i);
  pen_adhoc_c := number_delta (unit_choice i) (adhoc_delta_input i);
  total_penalty_c := total_penalty_c s;
  thr_A_c := thr_A_c s;
  thr_B_c := thr_B_c s;
  thr_C_c := thr_C_c s;
  risk_band := risk_band s;
  chsi_scaled := chsi_scaled s;
  audit_log := audit_log s
|}.

(** Lines 562-565: [min(max(x, 0.0), ceiling)]. *)
Definition clamp (x ceiling : R) : R := py_min (py_max x 0.0) ceiling.

(** Lines 556-568: the four clamped penalties and their capped sum. *)
Definition clamped_ppe (s : Session) : R := clamp (pen_clo_c s) 3.0.
Definition clamped_encl (s : Session) : R := clamp (pen_veh_c s) 3.0.
Definition clamped_rad (s : Session) : R := clamp (pen_rad_c s) 5.0.
Definition clamped_ahoc (s : Session) : R := clamp (pen_adhoc_c s) 4.0.

Definition penalty_sum (s : Session) : R :=
  clamped_ppe s + clamped_encl s + clamped_rad s + clamped_ahoc s.

Definition capped_total (s : Session) : R := py_min (penalty_sum s) 10.0.

(** Block 5B, lines 551-574: the body of the apply handler. *)
Definition apply_penalties (s : Session) : Session * ApplyOutcome :=
  match wbgt_base_frozen s with
  | None => (s, NoFrozenBaseline)
  | Some wbgt_base =>
      let total := capped_total s in
      let eff := wbgt_base + total in
      ({|
        db_c := db_c s;
        rh_pct := rh_pct s;
        ws_ms := ws_ms s;
        gt_c := gt_c s;
        place_label := place_label s;
        prev_env := prev_env s;
        wbgt_raw_c := wbgt_raw_c s;
        wbgt_base_c := wbgt_base_c s;
        wbgt_base_frozen := wbgt_base_frozen s;
        wbgt_eff_c := Some eff;
        penalties_applied := true;
        pen_clo_c := pen_clo_c s;
        pen_veh_c := pen_veh_c s;
        pen_rad_c := pen_rad_c s;
        pen_adhoc_c := pen_adhoc_c s;
        total_penalty_c := total;
        thr_A_c := thr_A_c s;
        thr_B_c := thr_B_c s;
        thr_C_c := thr_C_c s;
        risk_band := risk_band s;
        chsi_scaled := chsi_scaled s;
        audit_log := audit_log s
      |}, PenaltiesApplied total eff)
  end.

(** Line 549: the handler runs only in the run in which the button was
    pressed. *)
Definition apply_block (i : Input) (s : Session) : Session * option ApplyOutcome :=
  if apply_btn i
  then let (s', r) := apply_penalties s in (s', Some r)
  else (s, None).

(** Block 6, lines 594-621: the acclimatized cut-points, lowered by two
    degrees for workers who are not acclimatized. *)
Definition A_base : R := 29.0.
Definition B_base : R := 32.0.
Definition C_base : R := 35.0.

Definition thresholds (i : Input) (s : Session) : Session := {|
  db_c := db_c s;
  rh_pct := rh_pct s;
  ws_ms := ws_ms s;
  gt_c := gt_c s;
  place_label := place_label s;
  prev_env := prev_env s;
  wbgt_raw_c := wbgt_raw_c s;
  wbgt_base_c := wbgt_base_c s;
  wbgt_base_frozen := wbgt_base_frozen s;
  wbgt_eff_c := wbgt_eff_c s;
  penalties_applied := penalties_applied s;
  pen_clo_c := pen_clo_c s;
  pen_veh_c := pen_veh_c s;
  pen_rad_c := pen_rad_c s;
  pen_adhoc_c := pen_adhoc_c s;
  total_penalty_c := total_penalty_c s;
  thr_A_c := match accl_status i with Acclimatized => A_base | NotAcclimatized => A_base - 2.0 end;
  thr_B_c := match accl_status i with Acclimatized => B_base | NotAcclimatized => B_base - 2.0 end;
  thr_C_c := match accl_status i with Acclimatized => C_base | NotAcclimatized => C_base - 2.0 end;
  risk_band := risk_band s;
  chsi_scaled := chsi_scaled s;
  audit_log := audit_log s
|}.

(** Block 7, lines 659-684: the band of an effective WBGT. *)
Definition classify (wbgt_eff A B C : R) : Band :=
  if Rlt_dec wbgt_eff A then Low
  else if Rlt_dec wbgt_eff B then Caution
  else if Rlt_dec wbgt_eff C then HighStrain
  else Withdrawal.

(** Lines 708-709: the surrogate index. *)
Definition chsi_of (wbgt_eff : R) : R :=
  let chsi_raw := wbgt_eff - 25.0 in
  py_max 0 (py_min 50 ((chsi_raw / 10) * 50)).

(** Block 7, lines 649-710: nothing is stored while there is no effective
    value. *)
Definition classification (s : Session) : Session :=
  match wbgt_eff_c s with
  | None => s
  | Some wbgt_eff => {|
      db_c := db_c s;
      rh_pct := rh_pct s;
      ws_ms := ws_ms s;
      gt_c := gt_c s;
      place_label := place_label s;
      prev_env := prev_env s;
      wbgt_raw_c := wbgt_raw_c s;
      wbgt_base_c := wbgt_base_c s;
      wbgt_base_frozen := wbgt_base_frozen s;
      wbgt_eff_c := wbgt_eff_c s;
      penalties_applied := penalties_applied s;
      pen_clo_c := pen_clo_c s;
      pen_veh_c := pen_veh_c s;
      pen_rad_c := pen_rad_c s;
      pen_adhoc_c := pen_adhoc_c s;
      total_penalty_c := total_penalty_c s;
      thr_A_c := thr_A_c s;
      thr_B_c := thr_B_c s;
      thr_C_c := thr_C_c s;
      risk_band := band_text (classify wbgt_eff (thr_A_c s) (thr_B_c s) (thr_C_c s));
      chsi_scaled := chsi_of wbgt_eff;
      audit_log := audit_log s
    |}
  end.

(** Lines 740-751: the snapshot of this run. *)
Definition log_entry (i : Input) (s : Session) (wbgt_eff : R) : LogEntry := {|
  timestamp := now i;
  location := place_label s;
  DB_C := py_fixed 1 (db_c s);
  RH_pct := py_fixed 0 (rh_pct s);
  GT_C := py_fixed 1 (gt_c s);
  WBGT_baseline_C := py_fixed 1 (wbgt_base_c s);
  Penalty_total_C := py_fixed 1 (total_penalty_c s);
  WBGT_eff_C := py_fixed 1 wbgt_eff;
  Risk := risk_band s;
  CHSI_scaled := py_fixed 0 (chsi_scaled s)
|}.

(** Lines 753-755: append unless the entry repeats the last one. *)
Definition audit_append (log : list LogEntry) (e : LogEntry) : list LogEntry :=
  match log with
  | [] => log ++ [e]
  | _ :: _ => if LogEntry_eq_dec e (last log e) then log else log ++ [e]
  end.

(** Block 8, lines 738-755. *)
Definition audit_block (i : Input) (s : Session) : Session :=
  match penalties_applied s, wbgt_eff_c s with
  | true, Some wbgt_eff => {|
      db_c := db_c s;
      rh_pct := rh_pct s;
      ws_ms := ws_ms s;
      gt_c := gt_c s;
      place_label := place_label s;
      prev_env := prev_env s;
      wbgt_raw_c := wbgt_raw_c s;
      wbgt_base_c := wbgt_base_c s;
      wbgt_base_frozen := wbgt_base_frozen s;
      wbgt_eff_c := wbgt_eff_c s;
      penalties_applied := penalties_applied s;
      pen_clo_c := pen_clo_c s;
      pen_veh_c := pen_veh_c s;
      pen_rad_c := pen_rad_c s;
      pen_adhoc_c := pen_adhoc_c s;
      total_penalty_c := total_penalty_c s;
      thr_A_c := thr_A_c s;
      thr_B_c := thr_B_c s;
      thr_C_c := thr_C_c s;
      risk_band := risk_band s;
      chsi_scaled := chsi_scaled s;
      audit_log := audit_append (audit_log s) (log_entry i s wbgt_eff)
    |}
  | _, _ => s
  end.

(** Lines 758-775: the table is shown when the log is not empty; the
    download button is disabled unless [can_export]. *)
Definition export_controls (outcome : option ApplyOutcome) (s : Session) : View := {|
  apply_outcome := outcome;
  has_log := match audit_log s with [] => false | _ :: _ => true end;
  can_export := penalties_applied s
|}.

(** ** One evaluation cycle *)

(** The session as the baseline block finds it. *)
Definition read_inputs (i : Input) (s : Session) : Session :=
  manual_inputs i (location_search i s).

(** The session as the apply handler finds it. *)
Definition before_apply (i : Input) (s : Session) : Session :=
  penalty_widgets i (baseline_block (read_inputs i s)).

(** What remains of the run after the handler. *)
Definition after_apply (i : Input) (s : Session) : Session :=
  audit_block i (classification (thresholds i s)).

Definition cycle (s : Session) (i : Input) : Session * View :=
  let (s5, outcome) := apply_block i (before_apply i s) in
  let s8 := after_apply i s5 in
  (s8, export_controls outcome s8).

(** A session: the runs one after the other, from a given state. *)
Definition run (s : Session) (history : list Input) : Session :=
  fold_left (fun s i => fst (cycle s i)) history s.

(** The state and the view at the end of every run of a session. *)
Fixpoint trace (s : Session) (history : list Input) : list (Session * View) :=
  match history with
  | [] => []
  | i :: rest => cycle s i :: trace (fst (cycle s i)) rest
  end.

(** ** The export rule as the specification words it

    The export control is enabled after the last run of a session exactly
    when [penalties_applied] was true at the end of some run of it. *)
Definition export_iff_applied_once (history : list Input) : Prop :=
  forall s v, last (trace init history) (init, export_controls None init) = (s, v) ->
    (can_export v = true <->
     Exists (fun sv => penalties_applied (fst sv) = true) (trace init history)).

(** ** Concrete runs and sessions used as test points *)

(** The default reading in metric units, nothing pressed. *)
Definition default_run : Input := {|
  unit_choice := metric;
  place_pick := None;
  db_in := 32.0;
  rh_in := 60.0;
  ws_in := 1.0;
  gt_in := 35.0;
  ppe_delta_input := 0.0;
  veh_delta_input := 0.0;
  rad_delta_input := 0.0;
  adhoc_delta_input := 0.0;
  apply_btn := false;
  accl_status := Acclimatized;
  now := "2025-07-01 12:00:00"
|}.

(** The same reading, with the apply button pressed. *)
Definition apply_run : Input := {|
  unit_choice := metric;
  place_pick := None;
  db_in := 32.0;
  rh_in := 60.0;
  ws_in := 1.0;
  gt_in := 35.0;
  ppe_delta_input := 0.0;
  veh_delta_input := 0.0;
  rad_delta_input := 0.0;
  adhoc_delta_input := 0.0;
  apply_btn := true;
  accl_status := Acclimatized;
  now := "2025-07-01 12:00:05"
|}.

(** The dry bulb has gone up by one degree; nothing pressed. *)
Definition hotter_run : Input := {|
  unit_choice := metric;
  place_pick := None;
  db_in := 33.0;
  rh_in := 60.0;
  ws_in := 1.0;
  gt_in := 35.0;
  ppe_delta_input := 0.0;
  veh_delta_input := 0.0;
  rad_delta_input := 0.0;
  adhoc_delta_input := 0.0;
  apply_btn := false;
  accl_status := Acclimatized;
  now := "2025-07-01 12:00:10"
|}.

(** A session that holds a frozen baseline for the default reading. *)
Definition frozen_session : Session := {|
  db_c := 32.0;
  rh_pct := 60.0;
  ws_ms := 1.0;
  gt_c := 35.0;
  place_label := "";
  prev_env := Some {| env_db := 32.0; env_rh := 60.0; env_gt := 35.0; env_ws := 1.0 |};
  wbgt_raw_c := Some 28.9;
  wbgt_base_c := 28.9;
  wbgt_base_frozen := Some 28.9;
  wbgt_eff_c := Some 28.9;
  penalties_applied := false;
  pen_clo_c := 3.0;
  pen_veh_c := 2.0;
  pen_rad_c := 4.0;
  pen_adhoc_c := 4.0;
  total_penalty_c := 0.0;
  thr_A_c := 29.0;
  thr_B_c := 32.0;
  thr_C_c := 35.0;
  risk_band := "Low environmental heat stress";
  chsi_scaled := 19.5;
  audit_log := []
|}.

(** The session with another audit log in place of its own. *)
Definition with_audit_log (log : list LogEntry) (s : Session) : Session := {|
  db_c := db_c s;
  rh_pct := rh_pct s;
  ws_ms := ws_ms s;
  gt_c := gt_c s;
  place_label := place_label s;
  prev_env := prev_env s;
  wbgt_raw_c := wbgt_raw_c s;
  wbgt_base_c := wbgt_base_c s;
  wbgt_base_frozen := wbgt_base_frozen s;
  wbgt_eff_c := wbgt_eff_c s;
  penalties_applied := penalties_applied s;
  pen_clo_c := pen_clo_c s;
  pen_veh_c := pen_veh_c s;
  pen_rad_c := pen_rad_c s;
  pen_adhoc_c := pen_adhoc_c s;
  total_penalty_c := total_penalty_c s;
  thr_A_c := thr_A_c s;
  thr_B_c := thr_B_c s;
  thr_C_c := thr_C_c s;
  risk_band := risk_band s;
  chsi_scaled := chsi_scaled s;
  audit_log := log
|}.

(** Two audit rows that differ in their timestamp only. *)
Definition sample_entry : LogEntry := {|
  timestamp := "2025-07-01 12:00:05";
  location := "";
  DB_C := "32.0";
  RH_pct := "60";
  GT_C := "35.0";
  WBGT_baseline_C := "28.9";
  Penalty_total_C := "10.0";
  WBGT_eff_C := "38.9";
  Risk := "Withdrawal / Stop Work";
  CHSI_scaled := "50"
|}.

Definition later_entry : LogEntry := {|
  timestamp := "2025-07-01 12:00:06";
  location := "";
  DB_C := "32.0";
  RH_pct := "60";
  GT_C := "35.0";
  WBGT_baseline_C := "28.9";
  Penalty_total_C := "10.0";
  WBGT_eff_C := "38.9";
  Risk := "Withdrawal / Stop Work";
  CHSI_scaled := "50"
|}.

(** ** What a run leaves behind

    The state every full run ends in: the stored signature is the one of the
    stored reading, the frozen baseline is the raw WBGT of that reading, the
    effective value is the frozen baseline plus the committed penalty, and
    the committed penalty is within its cap and zero while no penalties are
    applied. *)
Definition settled (s : Session) : Prop :=
  prev_env s = Some (env_now s) /\
  wbgt_base_frozen s = Some (wbgt_raw_now s) /\
  wbgt_raw_c s = Some (wbgt_raw_now s) /\
  wbgt_base_c s = wbgt_raw_now s /\
  wbgt_eff_c s = Some (wbgt_raw_now s + total_penalty_c s) /\
  0 <= total_penalty_c s <= 10 /\
  (penalties_applied s = false -> total_penalty_c s = 0).

(** No two neighbouring rows of a log are equal. *)
Fixpoint no_adjacent_dups (log : list LogEntry) : Prop :=
  match log with
  | x :: (y :: _) as rest => x <> y /\ no_adjacent_dups rest
  | _ => True
  end.

(** The severity order of the bands, as the if-chain lists them. *)
Definition band_rank (b : Band) : nat :=
  match b with
  | Low => 0
  | Caution => 1
  | HighStrain => 2
  | Withdrawal => 3
  end.

(** The run [i] with other values in the four penalty inputs. *)
Definition stage (ppe veh rad adhoc : R) (i : Input) : Input := {|
  unit_choice := unit_choice i;
  place_pick := place_pick i;
  db_in := db_in i;
  rh_in := rh_in i;
  ws_in := ws_in i;
  gt_in := gt_in i;
  ppe_delta_input := ppe;
  veh_delta_input := veh;
  rad_delta_input := rad;
  adhoc_delta_input := adhoc;
  apply_btn := apply_btn i;
  accl_status := accl_status i;
  now := now i
|}.

(** ** Penalty presets (lines 466-469) *)

Definition PPE_PRESETS : list (string * R) :=
  [("None"%string, 0.0); ("Light"%string, 1.0); ("Moderate"%string, 2.0); ("Heavy"%string, 3.0)].
Definition VEHICLE_PRESETS : list (string * R) :=
  [("None"%string, 0.0); ("Open"%string, 1.0); ("Enclosed"%string, 2.0); ("Poorly ventilated"%string, 3.0)].
Definition RADIANT_PRESETS : list (string * R) :=
  [("None"%string, 0.0); ("Hot surfaces"%string, 2.0); ("Direct radiant"%string, 4.0); ("Extreme radiant"%string, 5.0)].
Definition ADHOC_PRESETS : list (string * R) :=
  [("None"%string, 0.0); ("Minor"%string, 1.0); ("Moderate"%string, 2.0); ("Severe"%string, 4.0)].

(** ** [_ensure_number_follows_preset] (lines 476-488)

    The three session keys the helper touches: the selection stored under
    [preset_key], the selection it last saw under [preset_key + "__prev"],
    and the value of the number input under [input_key].  A missing key
    reads as [None]. *)
Record PresetKeys := mkPresetKeys {
  preset : option string;
  preset__prev : option string;
  delta_input : option R
}.

Definition same_selection (a b : option string) : bool :=
  match a, b with
  | None, None => true
  | Some x, Some y => if string_dec x y then true else false
  | _, _ => false
  end.

Definition ensure_number_follows_preset
    (u : Units) (preset_c : R) (k : PresetKeys) : PresetKeys :=
  let prev := preset__prev k in
  if negb (same_selection prev (preset k)) then
    {| preset := preset k;
       preset__prev := preset k;
       delta_input := Some match u with
                           | metric => preset_c
                           | imperial => preset_c * 9 / 5
                           end |}
  else k.

(** The user types [x] into the number input between two runs. *)
Definition type_number (x : R) (k : PresetKeys) : PresetKeys :=
  {| preset := preset k; preset__prev := preset__prev k; delta_input := Some x |}.

(** ** City lookup (lines 265-289)

    One entry of the geocoder's ["results"]; a missing key is [None]. *)
Record GeoResult := mkGeoResult {
  name : option string;
  admin1 : option string;
  country_code : option string;
  latitude : option R;
  longitude : option R
}.

Definition get_str (v : option string) : string :=
  match v with Some x => x | None => EmptyString end.

(** Line 276: [f"{name}, {admin}, {cc}"]. *)
Definition geo_label (r : GeoResult) : string :=
  (get_str (name r) ++ ", " ++ get_str (admin1 r) ++ ", " ++ get_str (country_code r))%string.

Definition geo_labels (results : list GeoResult) : list string :=
  map geo_label results.

(** [labels.index(choice)]: the first position that holds the choice;
    [None] stands for Python's [ValueError]. *)
Fixpoint list_index (x : string) (l : list string) : option nat :=
  match l with
  | [] => None
  | y :: rest =>
      if string_dec y x then Some O
      else match list_index x rest with
           | Some n => Some (S n)
           | None => None
           end
  end.

(** Lines 284-289: what is stored for a choice of the select box: latitude,
    longitude and label.  An empty choice is falsy and stores nothing. *)
Definition pick_location (results : list GeoResult) (choice : string)
  : option (option R * option R * string) :=
  match choice with
  | EmptyString => None
  | _ =>
      match list_index choice (geo_labels results) with
      | None => None
      | Some idx =>
          match nth_error results idx with
          | None => None
          | Some loc => Some (latitude loc, longitude loc, choice)
          end
      end
  end.

(** Two results of one search that print the same label. *)
Definition first_hit : GeoResult := {|
  name := Some "Springfield"%string;
  admin1 := Some "Illinois"%string;
  country_code := Some "US"%string;
  latitude := Some 39.8;
  longitude := Some (-89.6)
|}.

Definition second_hit : GeoResult := {|
  name := Some "Springfield"%string;
  admin1 := Some "Illinois"%string;
  country_code := Some "US"%string;
  latitude := Some 40.1;
  longitude := Some (-88.2)
|}.

(** Session keys of a penalty category whose selection was just changed. *)
Definition changed_selection : PresetKeys := {|
  preset := Some "Heavy (+3.0 C)"%string;
  preset__prev := Some "None (+0.0 C)"%string;
  delta_input := Some 0.5
|}.

(** The apply run, one second later. *)
Definition later_apply_run : Input := {|
  unit_choice := metric;
  place_pick := None;
  db_in := 32.0;
  rh_in := 60.0;
  ws_in := 1.0;
  gt_in := 35.0;
  ppe_delta_input := 0.0;
  veh_delta_input := 0.0;
  rad_delta_input := 0.0;
  adhoc_delta_input := 0.0;
  apply_btn := true;
  accl_status := Acclimatized;
  now := "2025-07-01 12:00:06"
|}.

(** Lines 232-239: the band reference in the sidebar reads the threshold
    keys at the top of the run, before block 6 stores this run's values, with
    29, 32 and 35 when the keys are missing. *)
Definition sidebar_reference (s : Session) : R * R * R :=
  (thr_A_c s, thr_B_c s, thr_C_c s).

(** * Properties *)

(** ** How the later blocks treat the baseline and penalty state *)

Lemma classification_keeps s :
  wbgt_base_frozen (classification s) = wbgt_base_frozen s /\
  penalties_applied (classification s) = penalties_applied s /\
  total_penalty_c (classification s) = total_penalty_c s /\
  wbgt_eff_c (classification s) = wbgt_eff_c s /\
  wbgt_raw_c (classification s) = wbgt_raw_c s /\
  prev_env (classification s) = prev_env s /\
  audit_log (classification s) = audit_log s.
Proof.
  unfold classification. destruct (wbgt_eff_c s) eqn:E; cbn; rewrite ?E; tauto.
Qed.

Lemma audit_block_keeps i s :
  wbgt_base_frozen (audit_block i s) = wbgt_base_frozen s /\
  penalties_applied (audit_block i s) = penalties_applied s /\
  total_penalty_c (audit_block i s) = total_penalty_c s /\
  wbgt_eff_c (audit_block i s) = wbgt_eff_c s /\
  wbgt_raw_c (audit_block i s) = wbgt_raw_c s /\
  prev_env (audit_block i s) = prev_env s.
Proof.
  unfold audit_block.
  destruct (penalties_applied s) eqn:P, (wbgt_eff_c s) eqn:E; cbn; rewrite ?E, ?P; tauto.
Qed.

Lemma after_apply_keeps i s :
  wbgt_base_frozen (after_apply i s) = wbgt_base_frozen s /\
  penalties_applied (after_apply i s) = penalties_applied s /\
  total_penalty_c (after_apply i s) = total_penalty_c s /\
  wbgt_eff_c (after_apply i s) = wbgt_eff_c s /\
  wbgt_raw_c (after_apply i s) = wbgt_raw_c s /\
  prev_env (after_apply i s) = prev_env s.
Proof.
  unfold after_apply.
  destruct (audit_block_keeps i (classification (thresholds i s)))
    as (a1 & a2 & a3 & a4 & a5 & a6).
  destruct (classification_keeps (thresholds i s))
    as (c1 & c2 & c3 & c4 & c5 & c6 & _).
  rewrite a1, a2, a3, a4, a5, a6, c1, c2, c3, c4, c5, c6. cbn. tauto.
Qed.

Lemma apply_penalties_keeps s :
  wbgt_base_frozen (fst (apply_penalties s)) = wbgt_base_frozen s /\
  wbgt_raw_c (fst (apply_penalties s)) = wbgt_raw_c s /\
  prev_env (fst (apply_penalties s)) = prev_env s /\
  audit_log (fst (apply_penalties s)) = audit_log s.
Proof.
  unfold apply_penalties. destruct (wbgt_base_frozen s) eqn:E; cbn; rewrite ?E; tauto.
Qed.

Lemma apply_block_keeps i s :
  wbgt_base_frozen (fst (apply_block i s)) = wbgt_base_frozen s /\
  wbgt_raw_c (fst (apply_block i s)) = wbgt_raw_c s /\
  prev_env (fst (apply_block i s)) = prev_env s /\
  audit_log (fst (apply_block i s)) = audit_log s.
Proof.
  unfold apply_block. destruct (apply_btn i); [|cbn; tauto].
  pose proof (apply_penalties_keeps s) as H.
  destruct (apply_penalties s) as [s' r]. exact H.
Qed.

(** The baseline block always leaves a frozen baseline behind. *)
Lemma baseline_block_frozen s :
  wbgt_base_frozen (baseline_block s) =
  Some (if env_changed s then wbgt_raw_now s
        else match wbgt_base_frozen s with Some b => b | None => wbgt_raw_now s end).
Proof.
  unfold baseline_block, freeze_baseline, wbgt_raw_now. cbn.
  destruct (env_changed s); [reflexivity|].
  destruct (wbgt_base_frozen s); reflexivity.
Qed.

Lemma cycle_fst s i :
  fst (cycle s i) = after_apply i (fst (apply_block i (before_apply i s))).
Proof. unfold cycle. destruct (apply_block i (before_apply i s)); reflexivity. Qed.

Lemma cycle_snd s i :
  snd (cycle s i) =
  export_controls (snd (apply_block i (before_apply i s))) (fst (cycle s i)).
Proof. unfold cycle. destruct (apply_block i (before_apply i s)); reflexivity. Qed.

Lemma cycle_frozen s i :
  wbgt_base_frozen (fst (cycle s i)) = wbgt_base_frozen (baseline_block (read_inputs i s)).
Proof.
  rewrite cycle_fst.
  destruct (after_apply_keeps i (fst (apply_block i (before_apply i s)))) as (-> & _).
  destruct (apply_block_keeps i (before_apply i s)) as (-> & _).
  reflexivity.
Qed.
Lemma py_max_ge_l a b : a <= py_max a b.
Proof. unfold py_max; destruct (Rlt_dec a b); lra. Qed.

Lemma py_max_ge_r a b : b <= py_max a b.
Proof. unfold py_max; destruct (Rlt_dec a b); lra. Qed.

Lemma wind_factor_range ws : 0 < wind_factor ws <= 1.
Proof.
  unfold wind_factor.
  set (v := py_max ws 0.1).
  assert (Hv : 0 <= sqrt v) by apply sqrt_pos.
  assert (Hd : 1 <= 1.0 + 0.4 * sqrt v) by lra.
  split.
  - apply Rdiv_lt_0_compat; lra.
  - apply (Rmult_le_reg_r (1.0 + 0.4 * sqrt v)); [lra|].
    unfold Rdiv. rewrite Rmult_assoc, Rinv_l by lra. lra.
Qed.

(** C8. For every dry-bulb temperature, raw globe temperature and wind speed
    at or above zero, the wind-corrected globe temperature
    [db + (gt - db) * (1 / (1 + 0.4 * sqrt (max wind 0.1)))] lies between the
    dry-bulb and the raw globe temperature, both ends included, and the
    damping factor lies in (0, 1]. *)
Theorem gt_adj_between (db gt ws : R) :
  0 <= ws ->
  0 < wind_factor ws <= 1 /\
  Rmin db gt <= gt_adj db gt ws <= Rmax db gt.
Proof.
  intros _.
  pose proof (wind_factor_range ws) as Hf.
  split; [exact Hf|].
  unfold gt_adj. set (f := wind_factor ws) in *.
  unfold Rmin, Rmax. destruct (Rle_dec db gt); split; nra.
Qed.

Lemma gt_adj_between_witness :
  0 <= 1 /\
  (0 < wind_factor 1 <= 1 /\ Rmin 32 35 <= gt_adj 32 35 1 <= Rmax 32 35).
Proof. split; [lra | apply (gt_adj_between 32 35 1); lra]. Defined.

(** ** The baseline freeze (block 5) *)

Lemma env_changed_diff s e :
  prev_env s = Some e -> e <> env_now s -> env_changed s = true.
Proof.
  intros Hp Hne. unfold env_changed. rewrite Hp.
  destruct (EnvSig_eq_dec e (env_now s)); [contradiction | reflexivity].
Qed.

Lemma env_changed_same s :
  prev_env s = Some (env_now s) -> env_changed s = false.
Proof.
  intros Hp. unfold env_changed. rewrite Hp.
  destruct (EnvSig_eq_dec (env_now s) (env_now s)); [reflexivity | congruence].
Qed.

Lemma read_inputs_keeps i s :
  prev_env (read_inputs i s) = prev_env s /\
  wbgt_base_frozen (read_inputs i s) = wbgt_base_frozen s /\
  penalties_applied (read_inputs i s) = penalties_applied s /\
  total_penalty_c (read_inputs i s) = total_penalty_c s /\
  audit_log (read_inputs i s) = audit_log s.
Proof. cbn. tauto. Qed.

(** C2. From a state that holds a frozen baseline, a run whose reading
    differs from the stored signature in the dry bulb, the relative
    humidity, the wind speed or the globe temperature clears the frozen
    baseline, clears [penalties_applied] and zeroes the total penalty
    (lines 410-415), and the same run's baseline block freezes the raw WBGT
    of the new reading (lines 447-448); the baseline is still that value,
    and so not absent, when the run ends. *)
Theorem signature_change_rearms_baseline (s : Session) (i : Input) (b : R) (e : EnvSig) :
  wbgt_base_frozen s = Some b ->
  prev_env s = Some e ->
  (env_db (env_now (read_inputs i s)) <> env_db e \/
   env_rh (env_now (read_inputs i s)) <> env_rh e \/
   env_ws (env_now (read_inputs i s)) <> env_ws e \/
   env_gt (env_now (read_inputs i s)) <> env_gt e) ->
  let s0 := read_inputs i s in
  let cleared := detect_change s0 in
  let rearmed := baseline_block s0 in
  (wbgt_base_frozen cleared = None /\
   penalties_applied cleared = false /\
   total_penalty_c cleared = 0) /\
  (wbgt_base_frozen rearmed = Some (wbgt_raw_now s0) /\
   penalties_applied rearmed = false /\
   total_penalty_c rearmed = 0 /\
   wbgt_eff_c rearmed = Some (wbgt_raw_now s0) /\
   prev_env rearmed = Some (env_now s0)) /\
  wbgt_base_frozen (fst (cycle s i)) = Some (wbgt_raw_now s0).
Proof.
  intros _ Hp Hdiff s0 cleared rearmed.
  assert (Hch : env_changed s0 = true).
  { apply (env_changed_diff s0 e).
    - exact Hp.
    - intros ->. tauto. }
  assert (Hfr : wbgt_base_frozen rearmed = Some (wbgt_raw_now s0)).
  { subst rearmed. rewrite baseline_block_frozen, Hch. reflexivity. }
  split; [|split].
  - subst cleared. unfold detect_change. cbn [wbgt_base_frozen penalties_applied total_penalty_c].
    rewrite Hch. repeat split; lra.
  - split; [exact Hfr|].
    subst rearmed. unfold baseline_block, freeze_baseline, detect_change.
    cbn [wbgt_base_frozen penalties_applied total_penalty_c wbgt_eff_c prev_env].
    rewrite Hch. cbn. repeat split; lra.
  - rewrite cycle_frozen. exact Hfr.
Qed.

Lemma signature_change_rearms_baseline_witness :
  wbgt_base_frozen (fst (cycle frozen_session hotter_run)) =
  Some (wbgt_raw_now (read_inputs hotter_run frozen_session)).
Proof.
  apply (signature_change_rearms_baseline frozen_session hotter_run 28.9
           {| env_db := 32.0; env_rh := 60.0; env_gt := 35.0; env_ws := 1.0 |}).
  - reflexivity.
  - reflexivity.
  - left. simpl. lra.
Defined.

(** C3. From a state that holds a frozen baseline, a full run whose
    reading equals the stored signature leaves the frozen baseline as it
    was, while the raw WBGT is computed and stored again in that run. *)
Theorem unchanged_signature_keeps_frozen (s : Session) (i : Input) (b : R) :
  wbgt_base_frozen s = Some b ->
  prev_env s = Some (env_now (read_inputs i s)) ->
  wbgt_base_frozen (fst (cycle s i)) = Some b /\
  wbgt_raw_c (fst (cycle s i)) = Some (wbgt_raw_now (read_inputs i s)) /\
  prev_env (fst (cycle s i)) = prev_env s.
Proof.
  intros Hb Hp.
  assert (Hch : env_changed (read_inputs i s) = false).
  { apply env_changed_same. exact Hp. }
  split; [|split].
  - rewrite cycle_frozen, baseline_block_frozen, Hch.
    destruct (read_inputs_keeps i s) as (_ & -> & _). rewrite Hb. reflexivity.
  - rewrite cycle_fst.
    destruct (after_apply_keeps i (fst (apply_block i (before_apply i s))))
      as (_ & _ & _ & _ & -> & _).
    destruct (apply_block_keeps i (before_apply i s)) as (_ & -> & _).
    reflexivity.
  - rewrite cycle_fst.
    destruct (after_apply_keeps i (fst (apply_block i (before_apply i s))))
      as (_ & _ & _ & _ & _ & ->).
    destruct (apply_block_keeps i (before_apply i s)) as (_ & _ & -> & _).
    rewrite Hp. reflexivity.
Qed.

Lemma unchanged_signature_keeps_frozen_witness :
  wbgt_base_frozen (fst (cycle frozen_session default_run)) = Some 28.9.
Proof.
  apply (unchanged_signature_keeps_frozen frozen_session default_run 28.9);
    reflexivity.
Defined.

(** C9. In every full run the baseline block leaves a frozen baseline in
    place before the apply handler runs: it adopts the raw WBGT when none is
    held.  The handler therefore never takes its "No frozen baseline WBGT
    available" branch, and a pressed button always applies the penalties. *)
Theorem missing_baseline_branch_unreachable (s : Session) (i : Input) :
  (exists b, wbgt_base_frozen (before_apply i s) = Some b) /\
  snd (apply_penalties (before_apply i s)) <> NoFrozenBaseline /\
  apply_outcome (snd (cycle s i)) <> Some NoFrozenBaseline /\
  (forall s0, wbgt_base_frozen s0 = None ->
     wbgt_base_frozen (freeze_baseline s0) = Some (wbgt_raw_now s0)).
Proof.
  assert (Hb : exists b, wbgt_base_frozen (before_apply i s) = Some b).
  { unfold before_apply. cbn [penalty_widgets wbgt_base_frozen].
    rewrite baseline_block_frozen. eexists; reflexivity. }
  assert (Hh : snd (apply_penalties (before_apply i s)) <> NoFrozenBaseline).
  { destruct Hb as [b Hb]. unfold apply_penalties. rewrite Hb. cbn. discriminate. }
  split; [exact Hb|]. split; [exact Hh|]. split.
  - rewrite cycle_snd. cbn [export_controls apply_outcome].
    unfold apply_block. destruct (apply_btn i); [|discriminate].
    destruct (apply_penalties (before_apply i s)) as [s' r]. cbn in *. congruence.
  - intros s0 H0. unfold freeze_baseline. cbn. rewrite H0. reflexivity.
Qed.

Lemma missing_baseline_branch_unreachable_witness :
  wbgt_base_frozen init = None /\
  wbgt_base_frozen (freeze_baseline init) = Some (wbgt_raw_now init).
Proof.
  split; [reflexivity|].
  apply (missing_baseline_branch_unreachable init default_run). reflexivity.
Defined.

(** ** The apply handler (block 5B) *)

Lemma clamp_cases (x ceiling : R) :
  0 <= ceiling ->
  (x < 0 -> clamp x ceiling = 0) /\
  (ceiling < x -> clamp x ceiling = ceiling) /\
  (0 <= x <= ceiling -> clamp x ceiling = x) /\
  0 <= clamp x ceiling <= ceiling.
Proof.
  intros Hc. unfold clamp, py_min, py_max.
  destruct (Rlt_dec x 0.0) as [H0|H0];
    [destruct (Rlt_dec ceiling 0.0) | destruct (Rlt_dec ceiling x)];
    repeat split; intros; lra.
Qed.

Lemma penalty_sum_nonneg s : 0 <= penalty_sum s.
Proof.
  unfold penalty_sum, clamped_ppe, clamped_encl, clamped_rad, clamped_ahoc.
  destruct (clamp_cases (pen_clo_c s) 3.0) as (_ & _ & _ & ?); [lra|].
  destruct (clamp_cases (pen_veh_c s) 3.0) as (_ & _ & _ & ?); [lra|].
  destruct (clamp_cases (pen_rad_c s) 5.0) as (_ & _ & _ & ?); [lra|].
  destruct (clamp_cases (pen_adhoc_c s) 4.0) as (_ & _ & _ & ?); [lra|].
  lra.
Qed.

Lemma capped_total_range s : 0 <= capped_total s <= 10.
Proof.
  pose proof (penalty_sum_nonneg s).
  unfold capped_total, py_min. destruct (Rlt_dec 10.0 (penalty_sum s)); lra.
Qed.

(** C4. When the apply handler commits (a frozen baseline is held), each
    of the four staged penalties is clamped on its own, with floor 0 and
    ceiling 3 (PPE), 3 (enclosure), 5 (radiant) and 4 (ad hoc): an input
    below 0 counts as 0 and an input above its ceiling counts as the
    ceiling.  The committed [total_penalty_c] is the smaller of the sum of
    the four clamped values and 10, so it is exactly 10 whenever that sum
    exceeds 10. *)
Theorem apply_clamps_then_caps (s : Session) (b : R) :
  wbgt_base_frozen s = Some b ->
  let s' := fst (apply_penalties s) in
  (clamped_ppe s = Rmin (Rmax (pen_clo_c s) 0) 3 /\
   clamped_encl s = Rmin (Rmax (pen_veh_c s) 0) 3 /\
   clamped_rad s = Rmin (Rmax (pen_rad_c s) 0) 5 /\
   clamped_ahoc s = Rmin (Rmax (pen_adhoc_c s) 0) 4) /\
  ((pen_clo_c s < 0 -> clamped_ppe s = 0) /\ (3 < pen_clo_c s -> clamped_ppe s = 3) /\
   (pen_veh_c s < 0 -> clamped_encl s = 0) /\ (3 < pen_veh_c s -> clamped_encl s = 3) /\
   (pen_rad_c s < 0 -> clamped_rad s = 0) /\ (5 < pen_rad_c s -> clamped_rad s = 5) /\
   (pen_adhoc_c s < 0 -> clamped_ahoc s = 0) /\ (4 < pen_adhoc_c s -> clamped_ahoc s = 4)) /\
  total_penalty_c s' =
    Rmin (clamped_ppe s + clamped_encl s + clamped_rad s + clamped_ahoc s) 10 /\
  (10 < clamped_ppe s + clamped_encl s + clamped_rad s + clamped_ahoc s ->
   total_penalty_c s' = 10) /\
  wbgt_eff_c s' = Some (b + total_penalty_c s') /\
  penalties_applied s' = true.
Proof.
  intros Hb s'.
  assert (Hs' : total_penalty_c s' = capped_total s /\
                wbgt_eff_c s' = Some (b + capped_total s) /\
                penalties_applied s' = true).
  { subst s'. unfold apply_penalties. rewrite Hb. cbn. auto. }
  destruct Hs' as (Ht & He & Ha).
  destruct (clamp_cases (pen_clo_c s) 3.0) as (p1 & p2 & _); [lra|].
  destruct (clamp_cases (pen_veh_c s) 3.0) as (v1 & v2 & _); [lra|].
  destruct (clamp_cases (pen_rad_c s) 5.0) as (r1 & r2 & _); [lra|].
  destruct (clamp_cases (pen_adhoc_c s) 4.0) as (a1 & a2 & _); [lra|].
  assert (Hmm : forall x c, clamp x c = Rmin (Rmax x 0) c).
  { intros x c. unfold clamp, py_min, py_max, Rmin, Rmax.
    destruct (Rlt_dec x 0.0), (Rle_dec x 0);
      try lra;
      match goal with
      | |- context [Rlt_dec c ?y] => destruct (Rlt_dec c y)
      end;
      match goal with
      | |- context [Rle_dec ?y c] => destruct (Rle_dec y c)
      end; lra. }
  assert (Hcap : capped_total s =
                 Rmin (clamped_ppe s + clamped_encl s + clamped_rad s + clamped_ahoc s) 10).
  { unfold capped_total, penalty_sum, py_min, Rmin.
    set (t := clamped_ppe s + clamped_encl s + clamped_rad s + clamped_ahoc s).
    destruct (Rlt_dec 10.0 t), (Rle_dec t 10); lra. }
  unfold clamped_ppe, clamped_encl, clamped_rad, clamped_ahoc in *.
  split.
  { rewrite !Hmm. repeat split; f_equal; lra. }
  split.
  { repeat split; intros; [rewrite p1 | rewrite p2 | rewrite v1 | rewrite v2
                          | rewrite r1 | rewrite r2 | rewrite a1 | rewrite a2]; lra. }
  split; [rewrite Ht; exact Hcap|].
  split.
  { intros Hgt. rewrite Ht, Hcap. unfold Rmin.
    destruct (Rle_dec _ 10); lra. }
  split; [rewrite He, Ht; reflexivity | exact Ha].
Qed.

(** Heavy PPE 3.0, enclosed 2.0, direct radiant 4.0 and severe ad hoc 4.0
    sum to 13.0; the committed total is 10. *)
Lemma apply_clamps_then_caps_witness :
  total_penalty_c (fst (apply_penalties frozen_session)) = 10.
Proof.
  apply (apply_clamps_then_caps frozen_session 28.9).
  - reflexivity.
  - unfold clamped_ppe, clamped_encl, clamped_rad, clamped_ahoc, clamp, py_min, py_max.
    simpl.
    repeat match goal with
    | |- context [Rlt_dec ?a ?b] => destruct (Rlt_dec a b); try lra
    end.
Defined.

(** C6. The apply handler reports the missing-baseline error exactly when
    no frozen baseline is held when it runs, and in that case it leaves the
    whole session as it found it: [total_penalty_c], [wbgt_eff_c],
    [penalties_applied] and the audit log included. *)
Theorem apply_fails_iff_no_baseline (s : Session) :
  (snd (apply_penalties s) = NoFrozenBaseline <-> wbgt_base_frozen s = None) /\
  (snd (apply_penalties s) = NoFrozenBaseline ->
   fst (apply_penalties s) = s /\
   total_penalty_c (fst (apply_penalties s)) = total_penalty_c s /\
   wbgt_eff_c (fst (apply_penalties s)) = wbgt_eff_c s /\
   penalties_applied (fst (apply_penalties s)) = penalties_applied s /\
   audit_log (fst (apply_penalties s)) = audit_log s).
Proof.
  unfold apply_penalties. destruct (wbgt_base_frozen s) eqn:E; cbn.
  - split; [split; discriminate | discriminate].
  - split; [tauto | intros _; repeat split].
Qed.

Lemma apply_fails_iff_no_baseline_witness :
  snd (apply_penalties init) = NoFrozenBaseline /\
  fst (apply_penalties init) = init.
Proof.
  split; [reflexivity|].
  apply (apply_fails_iff_no_baseline init). reflexivity.
Defined.

(** C10. The committed [total_penalty_c] lies in [0, 10] at the end of every
    run of every session: it starts at 0, the signature reset writes 0, the
    apply handler writes a sum of four non-negative clamped values capped at
    10, and no other block writes it. *)
Theorem total_penalty_in_range (history : list Input) :
  0 <= total_penalty_c (run init history) <= 10 /\
  (forall s i, 0 <= total_penalty_c s <= 10 ->
     0 <= total_penalty_c (detect_change s) <= 10 /\
     0 <= total_penalty_c (fst (apply_penalties s)) <= 10 /\
     0 <= total_penalty_c (fst (cycle s i)) <= 10).
Proof.
  assert (Hdet : forall s, 0 <= total_penalty_c s <= 10 ->
                   0 <= total_penalty_c (detect_change s) <= 10).
  { intros s Hs. unfold detect_change. cbn. destruct (env_changed s); lra. }
  assert (Happ : forall s, 0 <= total_penalty_c s <= 10 ->
                   0 <= total_penalty_c (fst (apply_penalties s)) <= 10).
  { intros s Hs. unfold apply_penalties. destruct (wbgt_base_frozen s); cbn.
    - apply capped_total_range.
    - exact Hs. }
  assert (Hcyc : forall s i, 0 <= total_penalty_c s <= 10 ->
                   0 <= total_penalty_c (fst (cycle s i)) <= 10).
  { intros s i Hs. rewrite cycle_fst.
    destruct (after_apply_keeps i (fst (apply_block i (before_apply i s))))
      as (_ & _ & -> & _).
    assert (Hb : 0 <= total_penalty_c (before_apply i s) <= 10).
    { unfold before_apply, baseline_block, freeze_baseline.
      cbn [penalty_widgets total_penalty_c].
      apply Hdet. exact Hs. }
    unfold apply_block. destruct (apply_btn i); [|exact Hb].
    specialize (Happ _ Hb).
    destruct (apply_penalties (before_apply i s)); exact Happ. }
  split.
  - assert (Hrun : forall l s, 0 <= total_penalty_c s <= 10 ->
                     0 <= total_penalty_c (run s l) <= 10).
    { induction l as [|i l IH]; intros s Hs; [exact Hs|].
      unfold run in *. cbn [fold_left]. apply IH, Hcyc, Hs. }
    apply Hrun. cbn. lra.
  - intros s i Hs. auto.
Qed.

Lemma total_penalty_in_range_witness :
  0 <= total_penalty_c (fst (cycle frozen_session apply_run)) <= 10.
Proof.
  apply (total_penalty_in_range []). cbn. lra.
Defined.

(** ** Classification (block 7) *)

(** C5. For thresholds A < B < C the band of an effective WBGT is decided
    by half-open intervals: below A is Low, from A up to but not including
    B is Caution, from B up to but not including C is HighStrain, and C or
    above is Withdrawal.  A value equal to A is Caution and a value equal to
    C is Withdrawal. *)
Theorem classify_half_open (w A B C : R) :
  A < B -> B < C ->
  (classify w A B C = Low <-> w < A) /\
  (classify w A B C = Caution <-> A <= w < B) /\
  (classify w A B C = HighStrain <-> B <= w < C) /\
  (classify w A B C = Withdrawal <-> C <= w) /\
  classify A A B C = Caution /\
  classify C A B C = Withdrawal.
Proof.
  intros HAB HBC. unfold classify.
  destruct (Rlt_dec A A); [lra|].
  destruct (Rlt_dec A B); [|lra].
  destruct (Rlt_dec C A); [lra|].
  destruct (Rlt_dec C B); [lra|].
  destruct (Rlt_dec C C); [lra|].
  destruct (Rlt_dec w A); [|destruct (Rlt_dec w B); [|destruct (Rlt_dec w C)]];
    repeat split; intros;
    repeat match goal with H : _ /\ _ |- _ => destruct H end;
    try discriminate; try reflexivity; lra.
Qed.

Lemma classify_half_open_witness :
  classify 29.0 29.0 32.0 35.0 = Caution /\
  classify 35.0 29.0 32.0 35.0 = Withdrawal.
Proof.
  split; apply (classify_half_open 29.0 29.0 32.0 35.0); lra.
Defined.

(** ** The audit log (block 8) *)

Lemma last_snoc (l : list LogEntry) (x d : LogEntry) : last (l ++ [x]) d = x.
Proof. apply last_last. Qed.

Lemma audit_append_snoc (l : list LogEntry) (x e : LogEntry) :
  audit_append (l ++ [x]) e =
  if LogEntry_eq_dec e x then l ++ [x] else (l ++ [x]) ++ [e].
Proof.
  unfold audit_append. rewrite last_snoc.
  destruct (l ++ [x]) eqn:E; [destruct l; discriminate | reflexivity].
Qed.

Lemma audit_append_extends (log : list LogEntry) (e : LogEntry) :
  exists suffix, audit_append log e = log ++ suffix /\ (List.length suffix <= 1)%nat.
Proof.
  unfold audit_append. destruct log as [|x l].
  - exists [e]. split; [reflexivity | cbn; auto].
  - destruct (LogEntry_eq_dec e (last (x :: l) e)).
    + exists []. split; [now rewrite app_nil_r | cbn; auto].
    + exists [e]. split; [reflexivity | cbn; auto].
Qed.

(** C7. Appending an entry that equals the log's last entry in every field
    leaves the log, and so its length, as it was; an entry that differs from
    the last one, or any entry when the log is empty, is added at the end.
    The log only ever grows at its end: after a run it is the log from
    before the run followed by at most one new entry. *)
Theorem audit_append_dedup (log : list LogEntry) (e x : LogEntry) :
  audit_append (log ++ [e]) e = log ++ [e] /\
  List.length (audit_append (log ++ [e]) e) = List.length (log ++ [e]) /\
  (x <> e -> audit_append (log ++ [x]) e = (log ++ [x]) ++ [e]) /\
  audit_append [] e = [e] /\
  (exists suffix, audit_append log e = log ++ suffix /\ (List.length suffix <= 1)%nat) /\
  (forall s i, exists suffix,
     audit_log (fst (cycle s i)) = audit_log s ++ suffix /\ (List.length suffix <= 1)%nat).
Proof.
  assert (Hsame : audit_append (log ++ [e]) e = log ++ [e]).
  { rewrite audit_append_snoc. destruct (LogEntry_eq_dec e e); congruence. }
  split; [exact Hsame|].
  split; [now rewrite Hsame|].
  split.
  { intros Hne. rewrite audit_append_snoc.
    destruct (LogEntry_eq_dec e x); congruence. }
  split; [reflexivity|].
  split; [apply audit_append_extends|].
  intros s i. rewrite cycle_fst. unfold after_apply.
  set (s5 := fst (apply_block i (before_apply i s))).
  assert (H5 : audit_log (classification (thresholds i s5)) = audit_log s).
  { destruct (classification_keeps (thresholds i s5)) as (_ & _ & _ & _ & _ & _ & ->).
    cbn [thresholds audit_log]. subst s5.
    destruct (apply_block_keeps i (before_apply i s)) as (_ & _ & _ & ->).
    reflexivity. }
  unfold audit_block.
  destruct (penalties_applied (classification (thresholds i s5)));
    [destruct (wbgt_eff_c (classification (thresholds i s5))) as [w|]|].
  - cbn [audit_log]. rewrite H5. apply audit_append_extends.
  - exists []. rewrite H5, app_nil_r. split; [reflexivity | cbn; auto].
  - exists []. rewrite H5, app_nil_r. split; [reflexivity | cbn; auto].
Qed.

Lemma audit_append_dedup_witness :
  audit_append ([] ++ [sample_entry]) later_entry
  = ([] ++ [sample_entry]) ++ [later_entry].
Proof.
  refine (proj1 (proj2 (proj2 (audit_append_dedup [] later_entry sample_entry))) _).
  intros H. apply (f_equal timestamp) in H. discriminate H.
Defined.

(** ** The export control (lines 757-775) *)

Lemma cycle_applied s i :
  penalties_applied (fst (cycle s i)) =
  apply_btn i || (penalties_applied s && negb (env_changed (read_inputs i s))).
Proof.
  rewrite cycle_fst.
  destruct (after_apply_keeps i (fst (apply_block i (before_apply i s))))
    as (_ & -> & _).
  assert (Hb : exists b, wbgt_base_frozen (before_apply i s) = Some b).
  { unfold before_apply. cbn [penalty_widgets wbgt_base_frozen].
    rewrite baseline_block_frozen. eexists; reflexivity. }
  destruct Hb as [b Hb].
  unfold apply_block, apply_penalties. rewrite Hb.
  destruct (apply_btn i); cbn [fst penalties_applied orb]; [reflexivity|].
  unfold before_apply, baseline_block, freeze_baseline, detect_change.
  cbn [penalty_widgets penalties_applied].
  destruct (env_changed (read_inputs i s)); cbn.
  - now rewrite andb_false_r.
  - now rewrite andb_true_r.
Qed.

Lemma cycle_prev_env s i :
  prev_env (fst (cycle s i)) = Some (env_now (read_inputs i s)).
Proof.
  rewrite cycle_fst.
  destruct (after_apply_keeps i (fst (apply_block i (before_apply i s))))
    as (_ & _ & _ & _ & _ & ->).
  destruct (apply_block_keeps i (before_apply i s)) as (_ & _ & -> & _).
  reflexivity.
Qed.

(** C1, as the code has it. After every run the export control is enabled
    exactly when [penalties_applied] is true at the end of that run, whatever
    the audit log holds: that is, when the apply button was pressed in this
    run, or the flag was already true and the environment signature did not
    change. *)
Theorem export_follows_current_flag (s : Session) (i : Input) :
  can_export (snd (cycle s i)) = penalties_applied (fst (cycle s i)) /\
  can_export (snd (cycle s i)) =
    apply_btn i || (penalties_applied s && negb (env_changed (read_inputs i s))) /\
  (forall log, can_export (snd (cycle (with_audit_log log s) i)) =
               can_export (snd (cycle s i))).
Proof.
  assert (H1 : forall s, can_export (snd (cycle s i)) = penalties_applied (fst (cycle s i))).
  { intros s'. rewrite cycle_snd. reflexivity. }
  split; [apply H1|].
  split; [rewrite H1; apply cycle_applied|].
  intros log. rewrite !H1, !cycle_applied. reflexivity.
Qed.

Lemma env_changed_after_inputs i s e :
  prev_env s = Some e -> e <> env_now (read_inputs i s) ->
  env_changed (read_inputs i s) = true.
Proof. intros Hp Hne. apply (env_changed_diff _ e); assumption. Qed.

Lemma default_then_hotter_differ (s1 s2 : Session) :
  env_now (read_inputs apply_run s1) <> env_now (read_inputs hotter_run s2).
Proof.
  intros Heq. apply (f_equal env_db) in Heq.
  change (32.0 = 33.0) in Heq. lra.
Qed.

Lemma hotter_after_apply_disables (s1 : Session) :
  penalties_applied (fst (cycle s1 apply_run)) = true /\
  can_export (snd (cycle (fst (cycle s1 apply_run)) hotter_run)) = false.
Proof.
  split.
  - rewrite cycle_applied. reflexivity.
  - destruct (export_follows_current_flag (fst (cycle s1 apply_run)) hotter_run)
      as (_ & -> & _).
    rewrite (env_changed_after_inputs hotter_run (fst (cycle s1 apply_run))
               (env_now (read_inputs apply_run s1))).
    + cbn [apply_btn hotter_run orb negb]. apply andb_false_r.
    + apply cycle_prev_env.
    + apply default_then_hotter_differ.
Qed.

Lemma trace_three (s : Session) (a b c : Input) :
  trace s [a; b; c] =
  [cycle s a; cycle (fst (cycle s a)) b; cycle (fst (cycle (fst (cycle s a)) b)) c].
Proof. reflexivity. Qed.

(** C1, as the specification words it, fails: in the session made of a run
    with the default reading, a run that applies the penalties and a run with
    a hotter dry bulb, [penalties_applied] is true after the second run and
    the export control is disabled after the third. *)
Lemma export_disabled_after_signature_change :
  ~ export_iff_applied_once [default_run; apply_run; hotter_run].
Proof.
  unfold export_iff_applied_once. rewrite trace_three.
  destruct (hotter_after_apply_disables (fst (cycle init default_run)))
    as [Hon Hoff].
  revert Hon Hoff.
  generalize (cycle init default_run). intros r1.
  generalize (cycle (fst r1) apply_run). intros r2.
  generalize (cycle (fst r2) hotter_run). intros [s3 v3].
  cbn [last fst snd]. intros Hon Hoff H.
  destruct (H s3 v3 eq_refl) as [_ Hback].
  rewrite Hoff in Hback.
  assert (Hno : false = true); [|discriminate Hno].
  apply Hback. apply Exists_cons_tl, Exists_cons_hd. exact Hon.
Qed.

(** * Further properties of the engine *)

(** ** What the blocks after the baseline leave alone *)

Lemma classification_env s :
  db_c (classification s) = db_c s /\
  rh_pct (classification s) = rh_pct s /\
  gt_c (classification s) = gt_c s /\
  ws_ms (classification s) = ws_ms s /\
  wbgt_base_c (classification s) = wbgt_base_c s /\
  place_label (classification s) = place_label s.
Proof. unfold classification. destruct (wbgt_eff_c s); cbn; tauto. Qed.

Lemma audit_block_env i s :
  db_c (audit_block i s) = db_c s /\
  rh_pct (audit_block i s) = rh_pct s /\
  gt_c (audit_block i s) = gt_c s /\
  ws_ms (audit_block i s) = ws_ms s /\
  wbgt_base_c (audit_block i s) = wbgt_base_c s /\
  place_label (audit_block i s) = place_label s /\
  risk_band (audit_block i s) = risk_band s /\
  chsi_scaled (audit_block i s) = chsi_scaled s.
Proof.
  unfold audit_block.
  destruct (penalties_applied s); [destruct (wbgt_eff_c s)|]; cbn; tauto.
Qed.

Lemma after_apply_env i s :
  db_c (after_apply i s) = db_c s /\
  rh_pct (after_apply i s) = rh_pct s /\
  gt_c (after_apply i s) = gt_c s /\
  ws_ms (after_apply i s) = ws_ms s /\
  wbgt_base_c (after_apply i s) = wbgt_base_c s.
Proof.
  unfold after_apply.
  destruct (audit_block_env i (classification (thresholds i s)))
    as (-> & -> & -> & -> & -> & _).
  destruct (classification_env (thresholds i s)) as (-> & -> & -> & -> & -> & _).
  cbn. tauto.
Qed.

Lemma apply_block_env i s :
  db_c (fst (apply_block i s)) = db_c s /\
  rh_pct (fst (apply_block i s)) = rh_pct s /\
  gt_c (fst (apply_block i s)) = gt_c s /\
  ws_ms (fst (apply_block i s)) = ws_ms s /\
  wbgt_base_c (fst (apply_block i s)) = wbgt_base_c s.
Proof.
  unfold apply_block, apply_penalties.
  destruct (apply_btn i); [destruct (wbgt_base_frozen s)|]; cbn; tauto.
Qed.

Lemma cycle_env s i :
  env_now (fst (cycle s i)) = env_now (read_inputs i s) /\
  wbgt_raw_now (fst (cycle s i)) = wbgt_raw_now (read_inputs i s).
Proof.
  rewrite cycle_fst. unfold env_now, wbgt_raw_now.
  destruct (after_apply_env i (fst (apply_block i (before_apply i s))))
    as (-> & -> & -> & -> & _).
  destruct (apply_block_env i (before_apply i s)) as (-> & -> & -> & -> & _).
  split; reflexivity.
Qed.

Lemma env_now_raw s t : env_now s = env_now t -> wbgt_raw_now s = wbgt_raw_now t.
Proof.
  unfold env_now, wbgt_raw_now. intros H. injection H as -> -> -> ->. reflexivity.
Qed.

Lemma baseline_block_state s :
  penalties_applied (baseline_block s) =
    (if env_changed s then false else penalties_applied s) /\
  total_penalty_c (baseline_block s) =
    (if env_changed s then 0.0 else total_penalty_c s) /\
  wbgt_eff_c (baseline_block s) =
    (if env_changed s then Some (wbgt_raw_now s)
     else if penalties_applied s then wbgt_eff_c s
     else wbgt_base_frozen (baseline_block s)) /\
  wbgt_raw_c (baseline_block s) = Some (wbgt_raw_now s) /\
  wbgt_base_c (baseline_block s) = wbgt_raw_now s /\
  prev_env (baseline_block s) = Some (env_now s) /\
  env_now (baseline_block s) = env_now s /\
  wbgt_raw_now (baseline_block s) = wbgt_raw_now s.
Proof.
  unfold baseline_block, freeze_baseline, detect_change, env_now, wbgt_raw_now.
  cbn. destruct (env_changed s); cbn; [tauto|].
  destruct (penalties_applied s); cbn; tauto.
Qed.

(** The state the handler finds, from a state that is fresh or settled. *)
Lemma before_apply_settled s i :
  prev_env s = None \/ settled s ->
  wbgt_base_frozen (before_apply i s) = Some (wbgt_raw_now (read_inputs i s)) /\
  wbgt_eff_c (before_apply i s) =
    Some (wbgt_raw_now (read_inputs i s) + total_penalty_c (before_apply i s)) /\
  0 <= total_penalty_c (before_apply i s) <= 10 /\
  (penalties_applied (before_apply i s) = false ->
   total_penalty_c (before_apply i s) = 0).
Proof.
  intros Hs. unfold before_apply.
  cbn [penalty_widgets wbgt_base_frozen wbgt_eff_c total_penalty_c penalties_applied].
  set (s0 := read_inputs i s).
  destruct (baseline_block_state s0) as (Ha & Ht & He & _).
  rewrite Ha, Ht, He, baseline_block_frozen.
  destruct (env_changed s0) eqn:Hch.
  - repeat split; try lra. f_equal. lra.
  - destruct Hs as [Hnone | (Hp & Hf & _ & _ & Hef & Hr & Hz)].
    + unfold env_changed in Hch. change (prev_env s0) with (prev_env s) in Hch.
      rewrite Hnone in Hch. discriminate.
    + assert (Henv : wbgt_raw_now s = wbgt_raw_now s0).
      { apply env_now_raw.
        unfold env_changed in Hch. change (prev_env s0) with (prev_env s) in Hch.
        rewrite Hp in Hch.
        destruct (EnvSig_eq_dec (env_now s) (env_now s0)); [assumption | discriminate]. }
      change (wbgt_base_frozen s0) with (wbgt_base_frozen s).
      change (wbgt_eff_c s0) with (wbgt_eff_c s).
      change (total_penalty_c s0) with (total_penalty_c s).
      change (penalties_applied s0) with (penalties_applied s).
      rewrite Hf, Hef, Henv.
      split; [reflexivity|]. split.
      * destruct (penalties_applied s) eqn:Hap; [reflexivity|].
        rewrite (Hz eq_refl). f_equal. lra.
      * split; assumption.
Qed.

(** Every full run from a fresh or a settled state ends settled. *)
Lemma cycle_settles s i :
  prev_env s = None \/ settled s -> settled (fst (cycle s i)).
Proof.
  intros Hs.
  destruct (before_apply_settled s i Hs) as (Hf & He & Hr & Hz).
  destruct (cycle_env s i) as (_ & Hraw).
  unfold settled. rewrite Hraw.
  rewrite cycle_prev_env, cycle_frozen.
  assert (Hfro : wbgt_base_frozen (baseline_block (read_inputs i s)) =
                 Some (wbgt_raw_now (read_inputs i s))) by exact Hf.
  split; [f_equal; symmetry; apply cycle_env|].
  split; [exact Hfro|].
  rewrite cycle_fst.
  destruct (after_apply_keeps i (fst (apply_block i (before_apply i s))))
    as (_ & -> & -> & -> & -> & _).
  destruct (after_apply_env i (fst (apply_block i (before_apply i s))))
    as (_ & _ & _ & _ & ->).
  destruct (apply_block_keeps i (before_apply i s)) as (_ & -> & _).
  destruct (apply_block_env i (before_apply i s)) as (_ & _ & _ & _ & ->).
  split; [apply baseline_block_state|].
  split; [apply baseline_block_state|].
  unfold apply_block, apply_penalties. rewrite Hf.
  destruct (apply_btn i); cbn [fst wbgt_eff_c total_penalty_c penalties_applied].
  - pose proof (capped_total_range (before_apply i s)).
    repeat split; try lra; try discriminate.
  - repeat split; try assumption; lra.
Qed.

Lemma run_cons s i h : run s (i :: h) = run (fst (cycle s i)) h.
Proof. reflexivity. Qed.

Lemma run_settled h : forall s, settled s -> settled (run s h).
Proof.
  induction h as [|i h IH]; intros s Hs; [exact Hs|].
  rewrite run_cons. apply IH, cycle_settles. right; exact Hs.
Qed.

Lemma session_settled i h : settled (run init (i :: h)).
Proof.
  rewrite run_cons. apply run_settled, cycle_settles. left; reflexivity.
Qed.

(** ** Sessions started from the defaults *)

(** X1. At the end of every run of a session started from the defaults, the
    frozen baseline is the raw WBGT that this run computed from the stored
    reading.  The raw value that the audit row prints as its baseline
    ([wbgt_base_c]) is therefore the frozen baseline, and the stored
    signature is the one of the stored reading. *)
Theorem frozen_baseline_is_current_raw (i : Input) (h : list Input) :
  let s := run init (i :: h) in
  wbgt_base_frozen s = Some (wbgt_raw (db_c s) (rh_pct s) (gt_c s) (ws_ms s)) /\
  wbgt_base_frozen s = wbgt_raw_c s /\
  wbgt_base_frozen s = Some (wbgt_base_c s) /\
  prev_env s = Some (env_now s).
Proof.
  intros s. destruct (session_settled i h) as (Hp & Hf & Hr & Hb & _).
  fold s in Hp, Hf, Hr, Hb.
  rewrite Hf, Hr, Hb. repeat split; assumption.
Qed.

(** X2. At the end of every run of a session started from the defaults, a
    frozen baseline is held, the effective WBGT is that baseline plus the
    committed total penalty, which is between 0 and 10, so the effective
    value is never below the baseline and never more than 10 above it; while
    penalties are not applied the total is 0 and the effective value is the
    baseline itself. *)
Theorem effective_is_frozen_plus_total (i : Input) (h : list Input) :
  let s := run init (i :: h) in
  wbgt_base_frozen s <> None /\
  wbgt_eff_c s = option_map (fun b => b + total_penalty_c s) (wbgt_base_frozen s) /\
  (forall b e, wbgt_base_frozen s = Some b -> wbgt_eff_c s = Some e ->
     b <= e <= b + 10) /\
  (penalties_applied s = false ->
     total_penalty_c s = 0 /\ wbgt_eff_c s = wbgt_base_frozen s).
Proof.
  intros s. destruct (session_settled i h) as (_ & Hf & _ & _ & He & Hr & Hz).
  fold s in Hf, He, Hr, Hz.
  rewrite Hf, He. cbn [option_map].
  split; [discriminate|]. split; [reflexivity|]. split.
  - intros b e Hb Hee. injection Hb as <-. injection Hee as <-. lra.
  - intros Ha. specialize (Hz Ha). split; [exact Hz|].
    rewrite Hz. f_equal. lra.
Qed.

Lemma run_one s i : run s [i] = fst (cycle s i).
Proof. reflexivity. Qed.

Lemma effective_is_frozen_plus_total_witness :
  total_penalty_c (run init [default_run]) = 0 /\
  wbgt_eff_c (run init [default_run]) = wbgt_base_frozen (run init [default_run]).
Proof.
  apply (effective_is_frozen_plus_total default_run []).
  rewrite run_one, cycle_applied. reflexivity.
Defined.

(** The log after a run: the log before it, with this run's snapshot
    appended when penalties are applied and an effective value exists. *)
Lemma log_entry_audit_block i s w :
  log_entry i (audit_block i s) w = log_entry i s w.
Proof.
  unfold log_entry.
  destruct (audit_block_env i s) as (-> & -> & -> & _ & -> & -> & -> & ->).
  destruct (audit_block_keeps i s) as (_ & _ & -> & _).
  reflexivity.
Qed.

Lemma cycle_log s i :
  audit_log (fst (cycle s i)) =
  match penalties_applied (fst (cycle s i)), wbgt_eff_c (fst (cycle s i)) with
  | true, Some w => audit_append (audit_log s) (log_entry i (fst (cycle s i)) w)
  | _, _ => audit_log s
  end.
Proof.
  rewrite cycle_fst. unfold after_apply.
  set (c := classification (thresholds i (fst (apply_block i (before_apply i s))))).
  assert (Hlog : audit_log c = audit_log s).
  { subst c.
    destruct (classification_keeps (thresholds i (fst (apply_block i (before_apply i s)))))
      as (_ & _ & _ & _ & _ & _ & ->).
    cbn [thresholds audit_log].
    destruct (apply_block_keeps i (before_apply i s)) as (_ & _ & _ & ->).
    reflexivity. }
  destruct (audit_block_keeps i c) as (_ & -> & _ & -> & _).
  destruct (penalties_applied c) eqn:Ha; [destruct (wbgt_eff_c c) as [w|] eqn:Hw|].
  - rewrite log_entry_audit_block. unfold audit_block. rewrite Ha, Hw.
    cbn [audit_log]. rewrite Hlog. reflexivity.
  - unfold audit_block. rewrite Ha, Hw. exact Hlog.
  - unfold audit_block. rewrite Ha. exact Hlog.
Qed.

(** X3. Nothing is logged before penalties are applied: in a session
    started from the defaults in which the apply button is never pressed,
    the audit log stays empty, [penalties_applied] stays false and the
    export control stays disabled, whatever readings are entered. *)
Theorem no_log_without_apply (h : list Input) :
  Forall (fun i => apply_btn i = false) h ->
  audit_log (run init h) = [] /\
  penalties_applied (run init h) = false /\
  Forall (fun sv => can_export (snd sv) = false /\ has_log (snd sv) = false)
         (trace init h).
Proof.
  assert (Hgen : forall l s,
            Forall (fun i => apply_btn i = false) l ->
            audit_log s = [] -> penalties_applied s = false ->
            audit_log (run s l) = [] /\ penalties_applied (run s l) = false /\
            Forall (fun sv => can_export (snd sv) = false /\ has_log (snd sv) = false)
                   (trace s l)).
  { induction l as [|i l IH]; intros s Hall Hlog Hap.
    - cbn. auto.
    - inversion Hall as [|? ? Hi Hl]; subst.
      assert (Hap' : penalties_applied (fst (cycle s i)) = false).
      { rewrite cycle_applied, Hi, Hap. reflexivity. }
      assert (Hlog' : audit_log (fst (cycle s i)) = []).
      { rewrite cycle_log, Hap'. exact Hlog. }
      rewrite run_cons. cbn [trace].
      destruct (IH (fst (cycle s i)) Hl Hlog' Hap') as (H1 & H2 & H3).
      split; [exact H1|]. split; [exact H2|].
      constructor; [|exact H3].
      rewrite cycle_snd. cbn [export_controls can_export has_log].
      rewrite Hap', Hlog'. auto. }
  intros Hall. apply Hgen; [exact Hall | reflexivity | reflexivity].
Qed.

Lemma no_log_without_apply_witness :
  audit_log (run init [default_run; hotter_run]) = [].
Proof.
  apply (no_log_without_apply [default_run; hotter_run]).
  repeat constructor.
Defined.

(** ** The shape of the audit log *)

Lemma log_snoc_cases (log : list LogEntry) :
  log = [] \/ exists l x, log = l ++ [x].
Proof.
  destruct log as [|a l]; [left; reflexivity | right].
  destruct (exists_last (l := a :: l)) as (l' & x & E); [discriminate|].
  exists l', x. exact E.
Qed.

Lemma last_audit_append (log : list LogEntry) (e d : LogEntry) :
  last (audit_append log e) d = e.
Proof.
  destruct (log_snoc_cases log) as [-> | (l & x & ->)]; [reflexivity|].
  rewrite audit_append_snoc.
  destruct (LogEntry_eq_dec e x) as [-> | _]; apply last_last.
Qed.

Lemma audit_append_not_empty (log : list LogEntry) (e : LogEntry) :
  audit_append log e <> [].
Proof.
  destruct (log_snoc_cases log) as [-> | (l & x & ->)]; [discriminate|].
  rewrite audit_append_snoc.
  destruct (LogEntry_eq_dec e x); intros H; apply app_eq_nil in H;
    destruct H; discriminate.
Qed.

Lemma no_adjacent_dups_snoc (l : list LogEntry) (x e : LogEntry) :
  no_adjacent_dups (l ++ [x]) -> x <> e -> no_adjacent_dups ((l ++ [x]) ++ [e]).
Proof.
  intros Hl Hne. induction l as [|a l IH].
  - cbn. auto.
  - destruct l as [|b l].
    + cbn in *. tauto.
    + cbn [app no_adjacent_dups] in *. destruct Hl as [Hab Hl].
      split; [exact Hab | apply IH; exact Hl].
Qed.

Lemma audit_append_no_adjacent_dups (log : list LogEntry) (e : LogEntry) :
  no_adjacent_dups log -> no_adjacent_dups (audit_append log e).
Proof.
  intros Hl.
  destruct (log_snoc_cases log) as [-> | (l & x & ->)]; [cbn; auto|].
  rewrite audit_append_snoc.
  destruct (LogEntry_eq_dec e x) as [_ | Hne]; [exact Hl|].
  apply no_adjacent_dups_snoc; [exact Hl | congruence].
Qed.

(** X4. The audit log never holds the same row twice in a row: a run keeps
    that property of the log it finds, so it holds at the end of every run of
    every session started from the defaults. *)
Theorem log_has_no_adjacent_duplicates (h : list Input) :
  no_adjacent_dups (audit_log (run init h)) /\
  (forall s i, no_adjacent_dups (audit_log s) ->
     no_adjacent_dups (audit_log (fst (cycle s i)))).
Proof.
  assert (Hstep : forall s i, no_adjacent_dups (audit_log s) ->
                    no_adjacent_dups (audit_log (fst (cycle s i)))).
  { intros s i Hs. rewrite cycle_log.
    destruct (penalties_applied (fst (cycle s i))); [|exact Hs].
    destruct (wbgt_eff_c (fst (cycle s i))); [|exact Hs].
    apply audit_append_no_adjacent_dups, Hs. }
  split; [|exact Hstep].
  assert (Hrun : forall l s, no_adjacent_dups (audit_log s) ->
                   no_adjacent_dups (audit_log (run s l))).
  { induction l as [|i l IH]; intros s Hs; [exact Hs|].
    rewrite run_cons. apply IH, Hstep, Hs. }
  apply Hrun. exact I.
Qed.

Lemma log_has_no_adjacent_duplicates_witness :
  no_adjacent_dups (audit_log (fst (cycle frozen_session apply_run))).
Proof.
  apply (log_has_no_adjacent_duplicates []). exact I.
Defined.

(** X5. In a session started from the defaults, whenever a run ends with
    the export control enabled, the audit log is not empty and its last row
    is the snapshot of that very run: the table is shown and the download is
    never offered for an empty or stale log. *)
Theorem export_enabled_means_fresh_row (h : list Input) (i : Input) (d : LogEntry) :
  let s' := fst (cycle (run init h) i) in
  let v := snd (cycle (run init h) i) in
  can_export v = true ->
  has_log v = true /\
  exists w, wbgt_eff_c s' = Some w /\ last (audit_log s') d = log_entry i s' w.
Proof.
  intros s' v Hex.
  assert (Hap : penalties_applied s' = true).
  { subst v. rewrite cycle_snd in Hex. exact Hex. }
  assert (Hset : settled s').
  { subst s'. apply cycle_settles.
    destruct h as [|j h]; [left; reflexivity | right; apply session_settled]. }
  destruct Hset as (_ & _ & _ & _ & He & _).
  assert (Hlog : audit_log s' =
                 audit_append (audit_log (run init h))
                   (log_entry i s' (wbgt_raw_now s' + total_penalty_c s'))).
  { subst s'. rewrite cycle_log. rewrite Hap, He. reflexivity. }
  split.
  - subst v. rewrite cycle_snd. cbn [export_controls has_log]. fold s'.
    destruct (audit_log s') eqn:E; [|reflexivity].
    exfalso. symmetry in Hlog. apply audit_append_not_empty in Hlog. exact Hlog.
  - exists (wbgt_raw_now s' + total_penalty_c s'). split; [exact He|].
    rewrite Hlog. apply last_audit_append.
Qed.

Lemma export_enabled_means_fresh_row_witness :
  has_log (snd (cycle (run init [default_run]) apply_run)) = true.
Proof.
  apply (export_enabled_means_fresh_row [default_run] apply_run sample_entry).
  rewrite cycle_snd. cbn [export_controls can_export].
  rewrite cycle_applied. reflexivity.
Defined.

(** ** Re-running with nothing changed *)

Lemma audit_append_idem (log : list LogEntry) (e : LogEntry) :
  audit_append (audit_append log e) e = audit_append log e.
Proof.
  destruct (log_snoc_cases (audit_append log e)) as [E | (l & x & E)].
  - exfalso. exact (audit_append_not_empty log e E).
  - assert (Hx : x = e).
    { rewrite <- (last_audit_append log e e), E. symmetry. apply last_last. }
    subst x. rewrite E, audit_append_snoc.
    destruct (LogEntry_eq_dec e e); congruence.
Qed.

(** Each block is the identity on a session that already holds what the
    block would write. *)
Lemma read_inputs_fixed i t :
  db_c t = db_c (read_inputs i t) ->
  rh_pct t = rh_pct (read_inputs i t) ->
  ws_ms t = ws_ms (read_inputs i t) ->
  gt_c t = gt_c (read_inputs i t) ->
  place_label t = place_label (read_inputs i t) ->
  read_inputs i t = t.
Proof.
  destruct t. unfold read_inputs, manual_inputs, location_search.
  cbn. intros <- <- <- <- <-. reflexivity.
Qed.

Lemma baseline_block_fixed t b :
  prev_env t = Some (env_now t) ->
  wbgt_base_frozen t = Some b ->
  wbgt_raw_c t = Some (wbgt_raw_now t) ->
  wbgt_base_c t = wbgt_raw_now t ->
  (penalties_applied t = false -> wbgt_eff_c t = Some b) ->
  baseline_block t = t.
Proof.
  intros Hp Hf Hr Hb He.
  assert (Hch : env_changed t = false) by (apply env_changed_same; exact Hp).
  assert (E1 : detect_change t = t).
  { unfold detect_change. rewrite Hch, <- Hp. destruct t; reflexivity. }
  unfold baseline_block. rewrite E1.
  unfold freeze_baseline. rewrite Hf, <- Hr, <- Hb.
  destruct (penalties_applied t) eqn:Ha; cbn [negb].
  - rewrite <- Hf, <- Ha. destruct t; reflexivity.
  - pose proof (He eq_refl) as He'. destruct t. cbn in *. subst. reflexivity.
Qed.

Lemma penalty_widgets_fixed i t :
  pen_clo_c t = number_delta (unit_choice i) (ppe_delta_input i) ->
  pen_veh_c t = number_delta (unit_choice i) (veh_delta_input i) ->
  pen_rad_c t = number_delta (unit_choice i) (rad_delta_input i) ->
  pen_adhoc_c t = number_delta (unit_choice i) (adhoc_delta_input i) ->
  penalty_widgets i t = t.
Proof.
  destruct t. unfold penalty_widgets. cbn. intros <- <- <- <-. reflexivity.
Qed.

Lemma apply_block_fixed i t b :
  wbgt_base_frozen t = Some b ->
  (apply_btn i = true ->
   penalties_applied t = true /\
   total_penalty_c t = capped_total t /\
   wbgt_eff_c t = Some (b + capped_total t)) ->
  fst (apply_block i t) = t.
Proof.
  intros Hf Hc. unfold apply_block, apply_penalties. rewrite Hf.
  destruct (apply_btn i); [|reflexivity].
  destruct (Hc eq_refl) as (Ha & Ht & He).
  cbv zeta. cbn [fst]. rewrite <- He, <- Ht, <- Ha, <- Hf.
  destruct t; reflexivity.
Qed.

Lemma thresholds_fixed i t :
  thr_A_c t = thr_A_c (thresholds i t) ->
  thr_B_c t = thr_B_c (thresholds i t) ->
  thr_C_c t = thr_C_c (thresholds i t) ->
  thresholds i t = t.
Proof.
  destruct t. unfold thresholds. cbn. intros <- <- <-. reflexivity.
Qed.

Lemma classification_fixed t :
  (forall w, wbgt_eff_c t = Some w ->
     risk_band t = band_text (classify w (thr_A_c t) (thr_B_c t) (thr_C_c t)) /\
     chsi_scaled t = chsi_of w) ->
  classification t = t.
Proof.
  intros H. unfold classification.
  destruct (wbgt_eff_c t) as [w|] eqn:E; [|reflexivity].
  destruct (H w eq_refl) as (<- & <-). rewrite <- E.
  destruct t; reflexivity.
Qed.

Lemma audit_block_fixed i t :
  (forall w, penalties_applied t = true -> wbgt_eff_c t = Some w ->
     audit_append (audit_log t) (log_entry i t w) = audit_log t) ->
  audit_block i t = t.
Proof.
  intros H. unfold audit_block.
  destruct (penalties_applied t) eqn:Ha; [|reflexivity].
  destruct (wbgt_eff_c t) as [w|] eqn:E; [|reflexivity].
  rewrite (H w eq_refl eq_refl), <- Ha, <- E.
  destruct t; reflexivity.
Qed.

Lemma classification_more s :
  pen_clo_c (classification s) = pen_clo_c s /\
  pen_veh_c (classification s) = pen_veh_c s /\
  pen_rad_c (classification s) = pen_rad_c s /\
  pen_adhoc_c (classification s) = pen_adhoc_c s /\
  thr_A_c (classification s) = thr_A_c s /\
  thr_B_c (classification s) = thr_B_c s /\
  thr_C_c (classification s) = thr_C_c s /\
  (forall w, wbgt_eff_c s = Some w ->
     risk_band (classification s) =
       band_text (classify w (thr_A_c s) (thr_B_c s) (thr_C_c s)) /\
     chsi_scaled (classification s) = chsi_of w).
Proof.
  unfold classification. destruct (wbgt_eff_c s) as [w|]; cbn.
  - do 7 (split; [reflexivity|]).
    intros w' Hw. injection Hw as <-. split; reflexivity.
  - do 7 (split; [reflexivity|]). discriminate.
Qed.

Lemma audit_block_more i s :
  pen_clo_c (audit_block i s) = pen_clo_c s /\
  pen_veh_c (audit_block i s) = pen_veh_c s /\
  pen_rad_c (audit_block i s) = pen_rad_c s /\
  pen_adhoc_c (audit_block i s) = pen_adhoc_c s /\
  thr_A_c (audit_block i s) = thr_A_c s /\
  thr_B_c (audit_block i s) = thr_B_c s /\
  thr_C_c (audit_block i s) = thr_C_c s.
Proof.
  unfold audit_block.
  destruct (penalties_applied s); [destruct (wbgt_eff_c s)|]; cbn; tauto.
Qed.

Lemma apply_block_more i s :
  pen_clo_c (fst (apply_block i s)) = pen_clo_c s /\
  pen_veh_c (fst (apply_block i s)) = pen_veh_c s /\
  pen_rad_c (fst (apply_block i s)) = pen_rad_c s /\
  pen_adhoc_c (fst (apply_block i s)) = pen_adhoc_c s /\
  place_label (fst (apply_block i s)) = place_label s.
Proof.
  unfold apply_block, apply_penalties.
  destruct (apply_btn i); [destruct (wbgt_base_frozen s)|]; cbn; tauto.
Qed.

(** What a run stores for the band: the band of the effective value under
    the thresholds of this run's acclimatization status. *)
Lemma cycle_band s i w :
  wbgt_eff_c (fst (cycle s i)) = Some w ->
  thr_A_c (fst (cycle s i)) = thr_A_c (thresholds i s) /\
  thr_B_c (fst (cycle s i)) = thr_B_c (thresholds i s) /\
  thr_C_c (fst (cycle s i)) = thr_C_c (thresholds i s) /\
  risk_band (fst (cycle s i)) =
    band_text (classify w (thr_A_c (thresholds i s)) (thr_B_c (thresholds i s))
                          (thr_C_c (thresholds i s))) /\
  chsi_scaled (fst (cycle s i)) = chsi_of w.
Proof.
  rewrite cycle_fst. set (s5 := fst (apply_block i (before_apply i s))).
  unfold after_apply. intros Hw.
  destruct (audit_block_keeps i (classification (thresholds i s5)))
    as (_ & _ & _ & Ee & _).
  destruct (classification_keeps (thresholds i s5)) as (_ & _ & _ & Ec & _).
  rewrite Ee, Ec in Hw.
  destruct (audit_block_more i (classification (thresholds i s5)))
    as (_ & _ & _ & _ & -> & -> & ->).
  destruct (audit_block_env i (classification (thresholds i s5)))
    as (_ & _ & _ & _ & _ & _ & -> & ->).
  destruct (classification_more (thresholds i s5))
    as (_ & _ & _ & _ & -> & -> & -> & Hcl).
  destruct (Hcl w Hw) as (-> & ->).
  repeat split; reflexivity.
Qed.

Lemma cycle_thresholds s i :
  thr_A_c (fst (cycle s i)) = thr_A_c (thresholds i s) /\
  thr_B_c (fst (cycle s i)) = thr_B_c (thresholds i s) /\
  thr_C_c (fst (cycle s i)) = thr_C_c (thresholds i s).
Proof.
  rewrite cycle_fst. set (s5 := fst (apply_block i (before_apply i s))).
  unfold after_apply.
  destruct (audit_block_more i (classification (thresholds i s5)))
    as (_ & _ & _ & _ & -> & -> & ->).
  destruct (classification_more (thresholds i s5))
    as (_ & _ & _ & _ & -> & -> & -> & _).
  repeat split; reflexivity.
Qed.

Lemma cycle_staged s i :
  pen_clo_c (fst (cycle s i)) = number_delta (unit_choice i) (ppe_delta_input i) /\
  pen_veh_c (fst (cycle s i)) = number_delta (unit_choice i) (veh_delta_input i) /\
  pen_rad_c (fst (cycle s i)) = number_delta (unit_choice i) (rad_delta_input i) /\
  pen_adhoc_c (fst (cycle s i)) = number_delta (unit_choice i) (adhoc_delta_input i) /\
  place_label (fst (cycle s i)) = place_label (read_inputs i s).
Proof.
  rewrite cycle_fst. set (s5 := fst (apply_block i (before_apply i s))).
  unfold after_apply.
  destruct (audit_block_more i (classification (thresholds i s5)))
    as (-> & -> & -> & -> & _).
  destruct (audit_block_env i (classification (thresholds i s5)))
    as (_ & _ & _ & _ & _ & -> & _).
  destruct (classification_more (thresholds i s5)) as (-> & -> & -> & -> & _).
  destruct (classification_env (thresholds i s5)) as (_ & _ & _ & _ & _ & ->).
  cbn [thresholds pen_clo_c pen_veh_c pen_rad_c pen_adhoc_c place_label].
  subst s5.
  destruct (apply_block_more i (before_apply i s)) as (-> & -> & -> & -> & ->).
  repeat split; reflexivity.
Qed.

Lemma cycle_fixed t i :
  read_inputs i t = t ->
  baseline_block t = t ->
  penalty_widgets i t = t ->
  fst (apply_block i t) = t ->
  thresholds i t = t ->
  classification t = t ->
  audit_block i t = t ->
  fst (cycle t i) = t.
Proof.
  intros E1 E2 E3 E4 E5 E6 E7.
  rewrite cycle_fst. unfold before_apply, after_apply.
  rewrite E1, E2, E3, E4, E5, E6, E7. reflexivity.
Qed.

Lemma cycle_total_eff s i :
  apply_btn i = true ->
  penalties_applied (fst (cycle s i)) = true /\
  total_penalty_c (fst (cycle s i)) = capped_total (fst (cycle s i)) /\
  exists b, wbgt_base_frozen (fst (cycle s i)) = Some b /\
            wbgt_eff_c (fst (cycle s i)) = Some (b + capped_total (fst (cycle s i))).
Proof.
  intros Hbtn.
  assert (Hcap : capped_total (fst (cycle s i)) = capped_total (before_apply i s)).
  { unfold capped_total, penalty_sum, clamped_ppe, clamped_encl, clamped_rad, clamped_ahoc.
    destruct (cycle_staged s i) as (-> & -> & -> & -> & _). reflexivity. }
  rewrite Hcap, cycle_frozen, cycle_fst.
  destruct (after_apply_keeps i (fst (apply_block i (before_apply i s))))
    as (_ & -> & -> & -> & _).
  assert (Hb : exists b, wbgt_base_frozen (before_apply i s) = Some b).
  { unfold before_apply. cbn [penalty_widgets wbgt_base_frozen].
    rewrite baseline_block_frozen. eexists; reflexivity. }
  destruct Hb as [b Hb].
  unfold apply_block, apply_penalties. rewrite Hbtn, Hb. cbn.
  split; [reflexivity|]. split; [reflexivity|].
  exists b. split; [exact Hb | reflexivity].
Qed.

Lemma cycle_eff_unapplied s i :
  penalties_applied (fst (cycle s i)) = false ->
  wbgt_eff_c (fst (cycle s i)) = wbgt_base_frozen (fst (cycle s i)).
Proof.
  rewrite cycle_frozen, cycle_fst.
  destruct (after_apply_keeps i (fst (apply_block i (before_apply i s))))
    as (_ & -> & _ & -> & _).
  assert (Hb : exists b, wbgt_base_frozen (before_apply i s) = Some b).
  { unfold before_apply. cbn [penalty_widgets wbgt_base_frozen].
    rewrite baseline_block_frozen. eexists; reflexivity. }
  destruct Hb as [b Hb].
  unfold apply_block, apply_penalties. rewrite Hb.
  destruct (apply_btn i); cbn [fst penalties_applied wbgt_eff_c]; [discriminate|].
  unfold before_apply. cbn [penalty_widgets penalties_applied wbgt_eff_c].
  destruct (baseline_block_state (read_inputs i s)) as (-> & _ & -> & _).
  rewrite baseline_block_frozen.
  destruct (env_changed (read_inputs i s)); [reflexivity|].
  intros ->. reflexivity.
Qed.

(** X6. A run repeated with the very same inputs (the same widget values,
    buttons and clock reading) changes nothing: every key of the session,
    the audit log included, is as the first of the two runs left it.  In
    particular a pressed apply button does not stack penalties, and the
    repeated snapshot is not logged twice. *)
Theorem rerun_with_same_inputs_is_noop (s : Session) (i : Input) :
  fst (cycle (fst (cycle s i)) i) = fst (cycle s i).
Proof.
  destruct (cycle_env s i) as (Henv & Hraw).
  destruct (cycle_staged s i) as (Hp1 & Hp2 & Hp3 & Hp4 & Hpl).
  destruct (cycle_thresholds s i) as (Ha & Hb & Hc).
  pose proof (cycle_prev_env s i) as Hprev.
  pose proof (cycle_frozen s i) as Hfro.
  rewrite baseline_block_frozen in Hfro.
  pose proof (cycle_log s i) as Hlog.
  pose proof (cycle_band s i) as Hband.
  pose proof (cycle_total_eff s i) as Happ.
  pose proof (cycle_eff_unapplied s i) as Hun.
  assert (Hrawc : wbgt_raw_c (fst (cycle s i)) = Some (wbgt_raw_now (fst (cycle s i))) /\
                  wbgt_base_c (fst (cycle s i)) = wbgt_raw_now (fst (cycle s i))).
  { rewrite Hraw, cycle_fst.
    destruct (after_apply_keeps i (fst (apply_block i (before_apply i s))))
      as (_ & _ & _ & _ & -> & _).
    destruct (after_apply_env i (fst (apply_block i (before_apply i s))))
      as (_ & _ & _ & _ & ->).
    destruct (apply_block_keeps i (before_apply i s)) as (_ & -> & _).
    destruct (apply_block_env i (before_apply i s)) as (_ & _ & _ & _ & ->).
    unfold before_apply. cbn [penalty_widgets wbgt_raw_c wbgt_base_c].
    destruct (baseline_block_state (read_inputs i s)) as (_ & _ & _ & -> & -> & _).
    split; reflexivity. }
  destruct Hrawc as (Hrc & Hbc).
  revert Henv Hp1 Hp2 Hp3 Hp4 Hpl Ha Hb Hc Hprev Hfro Hlog Hband Happ Hun Hrc Hbc.
  clear Hraw.
  generalize (fst (cycle s i)). intros t.
  intros Henv Hp1 Hp2 Hp3 Hp4 Hpl Ha Hb Hc Hprev Hfro Hlog Hband Happ Hun Hrc Hbc.
  apply cycle_fixed.
  - unfold env_now in Henv. injection Henv as E1 E2 E3 E4.
    apply read_inputs_fixed; try assumption.
    cbn [read_inputs manual_inputs location_search place_label] in Hpl |- *.
    destruct (place_pick i); [exact Hpl | reflexivity].
  - eapply baseline_block_fixed; try eassumption.
    + rewrite Hprev, Henv. reflexivity.
    + intros Hf. rewrite (Hun Hf). exact Hfro.
  - apply penalty_widgets_fixed; assumption.
  - eapply apply_block_fixed; [exact Hfro|].
    intros Hbtn. destruct (Happ Hbtn) as (H1 & H2 & b & H3 & H4).
    rewrite Hfro in H3. injection H3 as <-. auto.
  - apply thresholds_fixed; assumption.
  - apply classification_fixed. intros w Hw.
    destruct (Hband w Hw) as (_ & _ & _ & Hr & Hch).
    rewrite Hr, Hch, Ha, Hb, Hc. split; reflexivity.
  - apply audit_block_fixed. intros w Hap Hw.
    rewrite Hap, Hw in Hlog. rewrite Hlog at 1.
    rewrite audit_append_idem. symmetry. exact Hlog.
Qed.

(** ** Staging and applying penalties *)

Lemma after_apply_staged i j s :
  accl_status j = accl_status i -> now j = now i ->
  after_apply j (penalty_widgets j s) = penalty_widgets j (after_apply i s).
Proof.
  intros Hacc Hnow.
  unfold after_apply, audit_block, classification, thresholds, log_entry.
  cbn [penalty_widgets wbgt_eff_c penalties_applied thr_A_c thr_B_c thr_C_c].
  rewrite Hacc, Hnow.
  destruct (wbgt_eff_c s) as [w|]; cbn [penalties_applied wbgt_eff_c];
    destruct (penalties_applied s); reflexivity.
Qed.

Lemma penalty_widgets_twice j i s :
  penalty_widgets j (penalty_widgets i s) = penalty_widgets j s.
Proof. reflexivity. Qed.

Lemma read_inputs_stage ppe veh rad adhoc i s :
  read_inputs (stage ppe veh rad adhoc i) s = read_inputs i s.
Proof. reflexivity. Qed.

(** X7. Editing the penalty inputs without pressing the apply button
    commits nothing: the run ends in the state it would have ended in with
    the old inputs, except for the four staged penalty keys.  The total
    penalty, the effective WBGT, the band and the audit log do not depend on
    what is staged. *)
Theorem staging_commits_nothing (s : Session) (i : Input) (ppe veh rad adhoc : R) :
  apply_btn i = false ->
  let j := stage ppe veh rad adhoc i in
  fst (cycle s j) = penalty_widgets j (fst (cycle s i)) /\
  total_penalty_c (fst (cycle s j)) = total_penalty_c (fst (cycle s i)) /\
  wbgt_eff_c (fst (cycle s j)) = wbgt_eff_c (fst (cycle s i)) /\
  penalties_applied (fst (cycle s j)) = penalties_applied (fst (cycle s i)) /\
  risk_band (fst (cycle s j)) = risk_band (fst (cycle s i)) /\
  audit_log (fst (cycle s j)) = audit_log (fst (cycle s i)).
Proof.
  intros Hbtn j.
  assert (Heq : fst (cycle s j) = penalty_widgets j (fst (cycle s i))).
  { rewrite !cycle_fst. unfold apply_block.
    change (apply_btn j) with (apply_btn i). rewrite Hbtn. cbn [fst].
    unfold before_apply. subst j. rewrite read_inputs_stage.
    generalize (baseline_block (read_inputs i s)). intros B.
    rewrite (after_apply_staged i (stage ppe veh rad adhoc i)) by reflexivity.
    rewrite (after_apply_staged i i) by reflexivity.
    rewrite penalty_widgets_twice. reflexivity. }
  split; [exact Heq|]. rewrite Heq.
  cbn [penalty_widgets total_penalty_c wbgt_eff_c penalties_applied risk_band audit_log].
  repeat split; reflexivity.
Qed.

Lemma staging_commits_nothing_witness :
  total_penalty_c (fst (cycle frozen_session (stage 3 3 5 4 default_run))) =
  total_penalty_c (fst (cycle frozen_session default_run)).
Proof.
  exact (proj1 (proj2 (staging_commits_nothing frozen_session default_run 3 3 5 4
                         eq_refl))).
Defined.

(** ** Thresholds and bands *)

Lemma classify_rank_le (w1 w2 A B C A' B' C' : R) :
  A <= B -> B <= C -> A' <= B' -> B' <= C' ->
  A' <= A -> B' <= B -> C' <= C -> w1 <= w2 ->
  (band_rank (classify w1 A B C) <= band_rank (classify w2 A' B' C'))%nat.
Proof.
  intros. unfold classify.
  destruct (Rlt_dec w1 A); [cbn; apply Nat.le_0_l|].
  destruct (Rlt_dec w2 A'); [lra|].
  destruct (Rlt_dec w1 B); [destruct (Rlt_dec w2 B'); [|destruct (Rlt_dec w2 C')];
                             cbn; auto with arith|].
  destruct (Rlt_dec w2 B'); [lra|].
  destruct (Rlt_dec w1 C); [destruct (Rlt_dec w2 C'); cbn; auto with arith|].
  destruct (Rlt_dec w2 C'); [lra|]. cbn. auto.
Qed.

(** X8. Every run stores thresholds A < B < C: 29, 32 and 35 for
    acclimatized workers and 27, 30 and 33 otherwise.  For the same
    effective WBGT the band under the non-acclimatized thresholds is never
    milder than under the acclimatized ones, and at most one band more
    severe. *)
Theorem thresholds_ordered_and_conservative (s : Session) (i : Input) (w : R) :
  let t := fst (cycle s i) in
  thr_A_c t < thr_B_c t < thr_C_c t /\
  thr_A_c t = match accl_status i with Acclimatized => 29 | NotAcclimatized => 27 end /\
  thr_B_c t = match accl_status i with Acclimatized => 32 | NotAcclimatized => 30 end /\
  thr_C_c t = match accl_status i with Acclimatized => 35 | NotAcclimatized => 33 end /\
  (band_rank (classify w 29 32 35) <= band_rank (classify w 27 30 33)
   <= S (band_rank (classify w 29 32 35)))%nat.
Proof.
  intros t. subst t.
  destruct (cycle_thresholds s i) as (-> & -> & ->).
  cbn [thresholds thr_A_c thr_B_c thr_C_c]. unfold A_base, B_base, C_base.
  split; [destruct (accl_status i); lra|].
  split; [destruct (accl_status i); lra|].
  split; [destruct (accl_status i); lra|].
  split; [destruct (accl_status i); lra|].
  split; [apply classify_rank_le; lra|].
  unfold classify.
  repeat match goal with
         | |- context [Rlt_dec ?a ?b] => destruct (Rlt_dec a b); try lra
         end; cbn; auto with arith.
Qed.

(** X9. The band never gets milder as the effective WBGT rises, and
    applying penalties never lowers the band: for thresholds A <= B <= C the
    band of the effective value the handler commits is at least as severe as
    the band of the frozen baseline it started from. *)
Theorem band_never_lowered_by_penalties (s : Session) (b w1 w2 A B C : R) :
  A <= B -> B <= C ->
  wbgt_base_frozen s = Some b ->
  w1 <= w2 ->
  (band_rank (classify w1 A B C) <= band_rank (classify w2 A B C))%nat /\
  wbgt_eff_c (fst (apply_penalties s)) =
    Some (b + total_penalty_c (fst (apply_penalties s))) /\
  (band_rank (classify b A B C) <=
   band_rank (classify (b + total_penalty_c (fst (apply_penalties s))) A B C))%nat.
Proof.
  intros HAB HBC Hb Hw.
  split; [apply classify_rank_le; lra|].
  unfold apply_penalties. rewrite Hb. cbn [fst wbgt_eff_c total_penalty_c].
  split; [reflexivity|].
  pose proof (capped_total_range s).
  apply classify_rank_le; lra.
Qed.

Lemma band_never_lowered_by_penalties_witness :
  (band_rank (classify 28.9 29 32 35) <=
   band_rank (classify (28.9 + total_penalty_c (fst (apply_penalties frozen_session)))
                       29 32 35))%nat.
Proof.
  apply (band_never_lowered_by_penalties frozen_session 28.9 0 1 29 32 35);
    try lra; reflexivity.
Defined.

(** X10. The surrogate index is always between 0 and 50, is 0 up to an
    effective WBGT of 25 and 50 from 35 on, equals the scaled offset
    [(w - 25) / 10 * 50] in between, and never decreases as the effective
    value rises. *)
Theorem chsi_of_range (w w' : R) :
  0 <= chsi_of w <= 50 /\
  (w <= 25 -> chsi_of w = 0) /\
  (35 <= w -> chsi_of w = 50) /\
  (25 <= w <= 35 -> chsi_of w = (w - 25.0) / 10 * 50) /\
  (w <= w' -> chsi_of w <= chsi_of w').
Proof.
  unfold chsi_of, py_min.
  destruct (Rlt_dec ((w - 25.0) / 10 * 50) 50);
    destruct (Rlt_dec ((w' - 25.0) / 10 * 50) 50);
    unfold py_max;
    repeat match goal with
           | |- context [Rlt_dec ?a ?b] => destruct (Rlt_dec a b)
           end;
    repeat split; intros;
    repeat match goal with H : _ /\ _ |- _ => destruct H end; lra.
Qed.

Lemma chsi_of_range_witness : chsi_of 20 = 0 /\ chsi_of 40 = 50.
Proof.
  split.
  - apply (chsi_of_range 20 20). lra.
  - apply (chsi_of_range 40 40). lra.
Defined.

(** X11. Every preset lies within the ceiling of its category, so the
    handler's clamps leave preset selections as they are: with a preset
    staged in each category the committed total is the sum of the four
    presets, capped at 10. *)
Theorem presets_pass_the_clamps (s : Session) (k1 k2 k3 k4 : string) (v1 v2 v3 v4 b : R) :
  In (k1, v1) PPE_PRESETS -> In (k2, v2) VEHICLE_PRESETS ->
  In (k3, v3) RADIANT_PRESETS -> In (k4, v4) ADHOC_PRESETS ->
  pen_clo_c s = v1 -> pen_veh_c s = v2 -> pen_rad_c s = v3 -> pen_adhoc_c s = v4 ->
  wbgt_base_frozen s = Some b ->
  clamped_ppe s = v1 /\ clamped_encl s = v2 /\ clamped_rad s = v3 /\ clamped_ahoc s = v4 /\
  total_penalty_c (fst (apply_penalties s)) = Rmin (v1 + v2 + v3 + v4) 10.
Proof.
  intros H1 H2 H3 H4 E1 E2 E3 E4 Hb.
  assert (R1 : 0 <= v1 <= 3).
  { unfold PPE_PRESETS in H1. cbn in H1.
    repeat (destruct H1 as [H1 | H1]; [injection H1 as _ <-; lra|]). contradiction. }
  assert (R2 : 0 <= v2 <= 3).
  { unfold VEHICLE_PRESETS in H2. cbn in H2.
    repeat (destruct H2 as [H2 | H2]; [injection H2 as _ <-; lra|]). contradiction. }
  assert (R3 : 0 <= v3 <= 5).
  { unfold RADIANT_PRESETS in H3. cbn in H3.
    repeat (destruct H3 as [H3 | H3]; [injection H3 as _ <-; lra|]). contradiction. }
  assert (R4 : 0 <= v4 <= 4).
  { unfold ADHOC_PRESETS in H4. cbn in H4.
    repeat (destruct H4 as [H4 | H4]; [injection H4 as _ <-; lra|]). contradiction. }
  assert (C1 : clamped_ppe s = v1).
  { unfold clamped_ppe. rewrite E1. apply clamp_cases; lra. }
  assert (C2 : clamped_encl s = v2).
  { unfold clamped_encl. rewrite E2. apply clamp_cases; lra. }
  assert (C3 : clamped_rad s = v3).
  { unfold clamped_rad. rewrite E3. apply clamp_cases; lra. }
  assert (C4 : clamped_ahoc s = v4).
  { unfold clamped_ahoc. rewrite E4. apply clamp_cases; lra. }
  repeat (split; [assumption|]).
  unfold apply_penalties. rewrite Hb. cbn [fst total_penalty_c].
  unfold capped_total, penalty_sum. rewrite C1, C2, C3, C4.
  unfold py_min, Rmin.
  destruct (Rlt_dec 10.0 (v1 + v2 + v3 + v4)), (Rle_dec (v1 + v2 + v3 + v4) 10); lra.
Qed.

Lemma presets_pass_the_clamps_witness :
  total_penalty_c (fst (apply_penalties frozen_session)) = Rmin (3.0 + 2.0 + 4.0 + 4.0) 10.
Proof.
  refine (proj2 (proj2 (proj2 (proj2
    (presets_pass_the_clamps frozen_session "Heavy" "Enclosed" "Direct radiant" "Severe"
       3.0 2.0 4.0 4.0 28.9 _ _ _ _ eq_refl eq_refl eq_refl eq_refl eq_refl))))).
  - do 3 right. left. reflexivity.
  - do 2 right. left. reflexivity.
  - do 2 right. left. reflexivity.
  - do 3 right. left. reflexivity.
Defined.

(** X12. Whenever a run ends with an effective WBGT, the band it stores
    for the audit row is the band of that effective value under the
    thresholds the same run stored, and the stored surrogate index is the one
    of that value; the band texts are pairwise different, so the stored text
    names exactly one band. *)
Theorem stored_band_matches_effective (s : Session) (i : Input) (w : R) :
  let t := fst (cycle s i) in
  wbgt_eff_c t = Some w ->
  risk_band t = band_text (classify w (thr_A_c t) (thr_B_c t) (thr_C_c t)) /\
  chsi_scaled t = chsi_of w /\
  (forall b1 b2, band_text b1 = band_text b2 -> b1 = b2).
Proof.
  intros t Hw. subst t.
  destruct (cycle_band s i w Hw) as (-> & -> & -> & -> & ->).
  split; [reflexivity|]. split; [reflexivity|].
  intros [] []; cbn; intros H; try reflexivity; discriminate H.
Qed.

Lemma stored_band_matches_effective_witness :
  chsi_scaled (fst (cycle init default_run)) =
  chsi_of (wbgt_raw_now (fst (cycle init default_run))
           + total_penalty_c (fst (cycle init default_run))).
Proof.
  refine (proj1 (proj2 (stored_band_matches_effective init default_run _ _))).
  apply (cycle_settles init default_run). left. reflexivity.
Defined.

(** ** The numeric estimators *)

Lemma py_max_mono a b c : a <= b -> py_max a c <= py_max b c.
Proof.
  intros H. unfold py_max.
  destruct (Rlt_dec a c), (Rlt_dec b c); lra.
Qed.

Lemma wind_factor_antitone ws1 ws2 :
  ws1 <= ws2 -> wind_factor ws2 <= wind_factor ws1.
Proof.
  intros H. unfold wind_factor.
  assert (H1 : 0 <= sqrt (py_max ws1 0.1)) by apply sqrt_pos.
  assert (H2 : sqrt (py_max ws1 0.1) <= sqrt (py_max ws2 0.1)).
  { apply sqrt_le_1_alt, py_max_mono, H. }
  unfold Rdiv. apply Rmult_le_compat_l; [lra|].
  apply Rinv_le_contravar; lra.
Qed.

(** X13. More wind damps the globe temperature more: the damping factor
    never increases with the wind speed, every wind speed up to the floor of
    0.1 m/s (negative entries included) gives the factor of 0.1 m/s, and the
    factor is always strictly below 1.  The wind-corrected globe temperature
    therefore moves towards the dry bulb as the wind rises. *)
Theorem wind_damping_grows_with_wind (db gt ws1 ws2 : R) :
  ws1 <= ws2 ->
  wind_factor ws2 <= wind_factor ws1 /\
  wind_factor ws1 <= wind_factor 0.1 /\
  wind_factor 0.1 < 1 /\
  (ws2 <= 0.1 -> wind_factor ws1 = wind_factor ws2) /\
  (db <= gt -> gt_adj db gt ws2 <= gt_adj db gt ws1) /\
  (gt <= db -> gt_adj db gt ws1 <= gt_adj db gt ws2).
Proof.
  intros H.
  pose proof (wind_factor_antitone ws1 ws2 H) as Hanti.
  assert (Hfloor : forall ws, ws <= 0.1 -> wind_factor ws = wind_factor 0.1).
  { intros ws Hws. unfold wind_factor, py_max.
    destruct (Rlt_dec ws 0.1), (Rlt_dec 0.1 0.1); try lra.
    replace ws with 0.1 by lra. reflexivity. }
  split; [exact Hanti|]. split.
  { destruct (Rle_dec ws1 0.1) as [Hle | Hgt].
    - rewrite (Hfloor ws1 Hle). lra.
    - apply wind_factor_antitone. lra. }
  split.
  { unfold wind_factor, py_max. destruct (Rlt_dec 0.1 0.1); [lra|].
    assert (Hs : 0 < sqrt 0.1) by (apply sqrt_lt_R0; lra).
    apply (Rmult_lt_reg_r (1.0 + 0.4 * sqrt 0.1)); [lra|].
    unfold Rdiv. rewrite Rmult_assoc, Rinv_l by lra. lra. }
  split.
  { intros H2. rewrite (Hfloor ws1), (Hfloor ws2) by lra. reflexivity. }
  unfold gt_adj. split; intros Hd; nra.
Qed.

Lemma wind_damping_grows_with_wind_witness :
  gt_adj 32 35 5 <= gt_adj 32 35 1.
Proof.
  apply (wind_damping_grows_with_wind 32 35 1 5); lra.
Defined.

(** X14. The raw WBGT never decreases when the globe temperature rises,
    and a rise of the globe temperature by d raises it by at most 0.2 d.
    With the globe at the dry-bulb temperature the wind has no effect on
    it. *)
Theorem wbgt_raw_monotone_in_globe (db rh gt1 gt2 ws ws' : R) :
  gt1 <= gt2 ->
  wbgt_raw db rh gt1 ws <= wbgt_raw db rh gt2 ws /\
  wbgt_raw db rh gt2 ws - wbgt_raw db rh gt1 ws <= 0.2 * (gt2 - gt1) /\
  wbgt_raw db rh db ws = wbgt_raw db rh db ws'.
Proof.
  intros H. unfold wbgt_raw, gt_adj.
  pose proof (wind_factor_range ws) as Hf.
  generalize dependent (wind_factor ws). intros f Hf.
  generalize (wind_factor ws'). intros f'.
  generalize (stull_twb db rh). intros t.
  repeat split; nra.
Qed.

Lemma wbgt_raw_monotone_in_globe_witness :
  wbgt_raw 32 60 35 1 <= wbgt_raw 32 60 37 1.
Proof.
  apply (wbgt_raw_monotone_in_globe 32 60 35 37 1 1). lra.
Defined.

(** ** The preset helper and the city lookup *)

Lemma same_selection_refl a : same_selection a a = true.
Proof.
  destruct a as [x|]; [|reflexivity].
  cbn. destruct (string_dec x x); congruence.
Qed.

(** X15. [_ensure_number_follows_preset] forces the number input once per
    change of the selection: after it ran, the remembered selection is the
    current one, running it again changes nothing, and a value the user
    types afterwards is kept for as long as the selection stays the same.
    When the selection differs from the remembered one, the number input is
    set to the preset in display units, which [number_delta] reads back as
    the preset in degrees Celsius (in imperial units through 9/5 and then
    5/9, an identity in real arithmetic). *)
Theorem preset_forces_number_once (u : Units) (preset_c x : R) (k : PresetKeys) :
  let k1 := ensure_number_follows_preset u preset_c k in
  preset k1 = preset k /\
  preset__prev k1 = preset k /\
  ensure_number_follows_preset u preset_c k1 = k1 /\
  ensure_number_follows_preset u preset_c (type_number x k1) = type_number x k1 /\
  (same_selection (preset__prev k) (preset k) = true -> k1 = k) /\
  (same_selection (preset__prev k) (preset k) = false ->
   exists d, delta_input k1 = Some d /\ number_delta u d = preset_c).
Proof.
  intros k1. subst k1. unfold ensure_number_follows_preset.
  destruct (same_selection (preset__prev k) (preset k)) eqn:E; cbn [negb].
  - assert (Hp : preset__prev k = preset k).
    { destruct (preset__prev k) as [a|], (preset k) as [b|]; cbn in E;
        try discriminate; try reflexivity.
      destruct (string_dec a b); [congruence | discriminate]. }
    rewrite E. cbn [negb]. unfold type_number. cbn [preset preset__prev].
    rewrite E. cbn [negb].
    repeat split; try assumption; try reflexivity. discriminate.
  - cbn [preset preset__prev delta_input]. rewrite same_selection_refl. cbn [negb].
    unfold type_number. cbn [preset preset__prev]. rewrite same_selection_refl.
    cbn [negb].
    repeat split; try reflexivity; try discriminate.
    intros _. eexists. split; [reflexivity|].
    destruct u; unfold number_delta; lra.
Qed.

Lemma preset_forces_number_once_witness :
  exists d, delta_input (ensure_number_follows_preset metric 3.0 changed_selection) = Some d /\
            number_delta metric d = 3.0.
Proof.
  refine (proj2 (proj2 (proj2 (proj2 (proj2
    (preset_forces_number_once metric 3.0 0 changed_selection))))) _).
  reflexivity.
Defined.

Lemma geo_label_not_empty r : geo_label r <> EmptyString.
Proof.
  unfold geo_label. destruct (get_str (name r)); cbn; discriminate.
Qed.

Lemma list_index_first (results : list GeoResult) (choice : string) :
  In choice (geo_labels results) ->
  exists pre loc post,
    results = pre ++ loc :: post /\
    geo_label loc = choice /\
    (forall r, In r pre -> geo_label r <> choice) /\
    list_index choice (geo_labels results) = Some (List.length pre) /\
    nth_error results (List.length pre) = Some loc.
Proof.
  induction results as [|r rs IH]; intros Hin; [contradiction|].
  cbn [geo_labels map list_index].
  destruct (string_dec (geo_label r) choice) as [Heq | Hne].
  - exists [], r, rs. cbn. repeat split; try assumption; try reflexivity.
    intros ? [].
  - destruct Hin as [Hin | Hin]; [contradiction|].
    destruct (IH Hin) as (pre & loc & post & -> & Hl & Hpre & Hidx & Hnth).
    exists (r :: pre), loc, post.
    fold (geo_labels (pre ++ loc :: post)). rewrite Hidx.
    cbn. repeat split; try assumption; try reflexivity.
    intros r' [<- | Hr']; [exact Hne | apply Hpre, Hr'].
Qed.

(** X16. A choice taken from the labels of a search is never empty, so the
    guard [if choice:] lets it through, and what is stored are the
    coordinates of the first result that prints that label: a later result
    with the same label can never be selected. *)
Theorem pick_location_takes_first_match (results : list GeoResult) (choice : string) :
  In choice (geo_labels results) ->
  choice <> EmptyString /\
  exists pre loc post,
    results = pre ++ loc :: post /\
    geo_label loc = choice /\
    (forall r, In r pre -> geo_label r <> choice) /\
    pick_location results choice = Some (latitude loc, longitude loc, choice).
Proof.
  intros Hin.
  assert (Hne : choice <> EmptyString).
  { apply in_map_iff in Hin. destruct Hin as (r & <- & _). apply geo_label_not_empty. }
  split; [exact Hne|].
  destruct (list_index_first results choice Hin)
    as (pre & loc & post & Hres & Hl & Hpre & Hidx & Hnth).
  exists pre, loc, post. repeat split; try assumption.
  unfold pick_location. destruct choice; [congruence|].
  rewrite Hidx, Hnth. reflexivity.
Qed.

Lemma pick_location_takes_first_match_witness :
  exists pre loc post,
    [first_hit; second_hit] = pre ++ loc :: post /\
    geo_label loc = "Springfield, Illinois, US"%string /\
    (forall r, In r pre -> geo_label r <> "Springfield, Illinois, US"%string) /\
    pick_location [first_hit; second_hit] "Springfield, Illinois, US" =
      Some (latitude loc, longitude loc, "Springfield, Illinois, US"%string).
Proof.
  refine (proj2 (pick_location_takes_first_match [first_hit; second_hit]
                   "Springfield, Illinois, US" _)).
  left. reflexivity.
Defined.

(** ** What is shown and what is logged *)

(** X17. The success message of the apply handler reports what the run
    commits: when the button is pressed, the run reports a total penalty and
    an effective WBGT that are the ones stored at the end of the run, the
    export control is enabled and the log is not empty; when the button is
    not pressed nothing is reported. *)
Theorem apply_report_matches_state (s : Session) (i : Input) :
  (apply_btn i = false -> apply_outcome (snd (cycle s i)) = None) /\
  (apply_btn i = true ->
   exists t e,
     apply_outcome (snd (cycle s i)) = Some (PenaltiesApplied t e) /\
     total_penalty_c (fst (cycle s i)) = t /\
     wbgt_eff_c (fst (cycle s i)) = Some e /\
     0 <= t <= 10 /\
     can_export (snd (cycle s i)) = true /\
     has_log (snd (cycle s i)) = true).
Proof.
  assert (Hb : exists b, wbgt_base_frozen (before_apply i s) = Some b).
  { unfold before_apply. cbn [penalty_widgets wbgt_base_frozen].
    rewrite baseline_block_frozen. eexists; reflexivity. }
  destruct Hb as [b Hb].
  split; intros Hbtn.
  - rewrite cycle_snd. cbn [export_controls apply_outcome].
    unfold apply_block. rewrite Hbtn. reflexivity.
  - exists (capped_total (before_apply i s)), (b + capped_total (before_apply i s)).
    assert (Hout : snd (apply_block i (before_apply i s)) =
                   Some (PenaltiesApplied (capped_total (before_apply i s))
                                          (b + capped_total (before_apply i s)))).
    { unfold apply_block, apply_penalties. rewrite Hbtn, Hb. reflexivity. }
    assert (Hst : total_penalty_c (fst (cycle s i)) = capped_total (before_apply i s) /\
                  wbgt_eff_c (fst (cycle s i)) = Some (b + capped_total (before_apply i s)) /\
                  penalties_applied (fst (cycle s i)) = true).
    { rewrite cycle_fst.
      destruct (after_apply_keeps i (fst (apply_block i (before_apply i s))))
        as (_ & -> & -> & -> & _).
      unfold apply_block, apply_penalties. rewrite Hbtn, Hb. cbn. auto. }
    destruct Hst as (Ht & He & Ha).
    split; [rewrite cycle_snd; cbn [export_controls apply_outcome]; exact Hout|].
    split; [exact Ht|]. split; [exact He|].
    split; [apply capped_total_range|].
    rewrite cycle_snd. cbn [export_controls can_export has_log].
    split; [exact Ha|].
    pose proof (cycle_log s i) as Hlog. rewrite Ha, He in Hlog.
    destruct (audit_log (fst (cycle s i))) eqn:E; [|reflexivity].
    exfalso. symmetry in Hlog. exact (audit_append_not_empty _ _ Hlog).
Qed.

Lemma apply_report_matches_state_witness :
  apply_outcome (snd (cycle init default_run)) = None.
Proof.
  apply (apply_report_matches_state init default_run). reflexivity.
Defined.

Lemma cycle_can_export s i :
  can_export (snd (cycle s i)) = penalties_applied (fst (cycle s i)).
Proof. rewrite cycle_snd. reflexivity. Qed.

(** X18. The duplicate check compares whole rows, timestamp included: a
    run that ends with penalties applied and whose clock reading differs from
    the timestamp of the log's last row adds a row, even when nothing else
    changed since that row was written. *)
Theorem later_rerun_logs_again (s : Session) (i : Input) (w : R) :
  let t := fst (cycle s i) in
  penalties_applied t = true ->
  wbgt_eff_c t = Some w ->
  (forall l x, audit_log s = l ++ [x] -> timestamp x <> now i) ->
  audit_log t = audit_log s ++ [log_entry i t w].
Proof.
  intros t Ha He Hts. subst t.
  rewrite cycle_log at 1. rewrite Ha, He.
  destruct (log_snoc_cases (audit_log s)) as [-> | (l & x & E)]; [reflexivity|].
  rewrite E, audit_append_snoc.
  destruct (LogEntry_eq_dec (log_entry i (fst (cycle s i)) w) x) as [Heq | _];
    [|reflexivity].
  exfalso. apply (Hts l x E). rewrite <- Heq. reflexivity.
Qed.

Lemma later_rerun_logs_again_witness :
  exists w,
    audit_log (fst (cycle (with_audit_log [sample_entry] frozen_session) later_apply_run)) =
    audit_log (with_audit_log [sample_entry] frozen_session)
      ++ [log_entry later_apply_run
            (fst (cycle (with_audit_log [sample_entry] frozen_session) later_apply_run)) w].
Proof.
  destruct (apply_report_matches_state (with_audit_log [sample_entry] frozen_session)
              later_apply_run) as (_ & H).
  destruct (H eq_refl) as (t & e & _ & _ & He & _ & Hex & _).
  exists e.
  apply (later_rerun_logs_again (with_audit_log [sample_entry] frozen_session)
           later_apply_run e).
  - rewrite cycle_can_export in Hex. exact Hex.
  - exact He.
  - intros l x E. change ([sample_entry] = l ++ [x]) in E.
    apply (app_inj_tail [] l) in E. destruct E as (_ & <-).
    discriminate.
Defined.

(** X19. The band reference in the sidebar is one run behind: it shows
    the thresholds that the previous run stored (29, 32 and 35 in the first
    run), so in the run in which the acclimatization status is switched it
    still shows the old cut-points while the classification of that run
    already uses the new ones. *)
Theorem sidebar_reference_lags_one_run (s : Session) (i j : Input) :
  sidebar_reference init = (29, 32, 35) /\
  sidebar_reference (fst (cycle s i)) =
    (match accl_status i with Acclimatized => 29 | NotAcclimatized => 27 end,
     match accl_status i with Acclimatized => 32 | NotAcclimatized => 30 end,
     match accl_status i with Acclimatized => 35 | NotAcclimatized => 33 end) /\
  (accl_status i <> accl_status j ->
   fst (fst (sidebar_reference (fst (cycle s i)))) <>
   thr_A_c (fst (cycle (fst (cycle s i)) j))).
Proof.
  unfold sidebar_reference.
  destruct (cycle_thresholds s i) as (Ea & Eb & Ec).
  destruct (cycle_thresholds (fst (cycle s i)) j) as (Fa & _).
  rewrite Ea, Eb, Ec, Fa.
  cbn [thresholds thr_A_c thr_B_c thr_C_c fst init].
  unfold A_base, B_base, C_base.
  split; [repeat f_equal; lra|].
  split; [destruct (accl_status i); repeat f_equal; lra|].
  destruct (accl_status i), (accl_status j); intros Hne; try congruence; lra.
Qed.

Lemma sidebar_reference_lags_one_run_witness :
  fst (fst (sidebar_reference (fst (cycle init default_run)))) <>
  thr_A_c (fst (cycle (fst (cycle init default_run))
                      (mkInput metric None 32 60 1 35 0 0 0 0 false NotAcclimatized
                               "2025-07-01 12:00:20"))).
Proof.
  apply (sidebar_reference_lags_one_run init default_run
           (mkInput metric None 32 60 1 35 0 0 0 0 false NotAcclimatized
                    "2025-07-01 12:00:20")).
  discriminate.
Defined.

(** ** Unit helpers (lines 154-159) *)


